(** * PluginStateDemo: the state-operation controller of ServiceExample_PluginState

    A shallow embedding of the [PluginStateDemo] React component
    (validation, error categorisation, bounded debug log, save / restore /
    clear against the host's PluginState service, debounced auto-save) and
    the properties its specification states about it.

    Conventions of the embedding.
    - A JavaScript string is a [string]: one [ascii] per UTF-16 code unit,
      code units restricted to 0..255.  [.length] counts code units.
    - A JavaScript number that the component treats as a count or counter is
      a [Z]; it is printed in decimal, as [Number.prototype.toString] does
      for integral values below 1e21.
    - [this.setState] is applied at once.  Every read of [this.state] in the
      modelled methods either opens a handler, follows an [await], or reads a
      field no earlier pending update of the same handler touches, so React's
      batching cannot be observed by them.
    - The host (clock formatting, [Date.parse], the [stack] of an [Error])
      and the PluginState service are parameters. *)

From Stdlib Require Import ZArith List String Ascii Bool Lia DecimalString.
Import ListNotations.
Local Open Scope string_scope.
Local Open Scope Z_scope.

(* ------------------------------------------------------------------ *)
(** ** JavaScript strings and numbers *)

Module Js.

Definition length (s : string) : Z := Z.of_nat (String.length s).

(** [hay.includes(needle)]: case-sensitive substring search. *)
Fixpoint includes (hay needle : string) : bool :=
  match hay with
  | EmptyString => String.prefix needle EmptyString
  | String _ rest => String.prefix needle hay || includes rest needle
  end.

(** [String(n)] for an integral number. *)
Definition Number_toString (n : Z) : string :=
  NilZero.string_of_int (Z.to_int n).

(** Truthiness of a string: only the empty string is falsy. *)
Definition truthy (s : string) : bool :=
  match s with EmptyString => false | _ => true end.

(** [parts.join(sep)]. *)
Fixpoint join (sep : string) (parts : list string) : string :=
  match parts with
  | [] => ""
  | [p] => p
  | p :: rest => p ++ sep ++ join sep rest
  end.

(** [s.substring(0, n)]. *)
Definition substring0 (n : nat) (s : string) : string := String.substring 0 n s.

(** [arr.slice(-n)]: the last [n] elements (all of them when fewer). *)
Definition slice_last {A : Type} (n : nat) (l : list A) : list A :=
  skipn (List.length l - n) l.

(** [isNaN(x)] on the result of [Date.parse]; [None] stands for NaN. *)
Definition isNaN (x : option Z) : bool :=
  match x with None => true | Some _ => false end.

End Js.

(* ------------------------------------------------------------------ *)
(** ** JSON.stringify on the values the component serialises *)

Module JSON.

Definition dquote : ascii := ascii_of_nat 34.
Definition backslash : ascii := ascii_of_nat 92.

Definition hex_digit (n : N) : ascii :=
  if (n <? 10)%N then ascii_of_N (48 + n) else ascii_of_N (87 + n).

(** QuoteJSONString, one code unit: the two-character escapes, [\u00XX]
    for the other control characters, the unit itself otherwise. *)
Definition escape (c : ascii) : string :=
  let n := N_of_ascii c in
  if (n =? 34)%N then String backslash (String dquote "")
  else if (n =? 92)%N then String backslash (String backslash "")
  else if (n =? 8)%N then String backslash "b"
  else if (n =? 9)%N then String backslash "t"
  else if (n =? 10)%N then String backslash "n"
  else if (n =? 12)%N then String backslash "f"
  else if (n =? 13)%N then String backslash "r"
  else if (n <? 32)%N then
    String backslash
      (String "u" (String "0" (String "0"
         (String (hex_digit (n / 16)) (String (hex_digit (n mod 16)) "")))))
  else String c "".

Fixpoint escape_all (s : string) : string :=
  match s with
  | EmptyString => ""
  | String c rest => escape c ++ escape_all rest
  end.

Definition str (s : string) : string :=
  String dquote (escape_all s ++ String dquote "").

Definition num (n : Z) : string := Js.Number_toString n.

Definition boolean (b : bool) : string := if b then "true" else "false".

(** One [key:value] member; an undefined value drops the member. *)
Definition member (key : string) (value : option string) : list string :=
  match value with
  | Some v => [str key ++ ":" ++ v]
  | None => []
  end.

Definition object (members : list string) : string :=
  "{" ++ Js.join "," members ++ "}".

End JSON.

(* ------------------------------------------------------------------ *)
(** ** Data model *)

Record Preferences := {
  autoSave : bool;
  showDebugInfo : bool
}.

Record DemoData := {
  userInput : string;
  counter : Z;
  preferences : Preferences;
  timestamp : string
}.

(** The object handed to [saveState] and received from [getState].  The
    service types it as [any]; a member may be missing. *)
Record SavedState := {
  saved_demoData : option DemoData;
  saved_saveCount : option Z;
  saved_restoreCount : option Z
}.

Inductive ErrorType := service | validation | network | unknown.

Record ErrorInfo := {
  type : ErrorType;
  message : string;
  details : string;
  err_timestamp : string;
  operation : string;
  stack : string
}.

(** A thrown or rejected value. *)
Inductive JsValue :=
| JsError (name msg : string) (stk : option string)
    (* [error instanceof Error]: its [name], [message] and [stack] *)
| JsString (s : string)
    (* [typeof error === 'string'] *)
| JsObject (msg : option string) (to_string : string) (json : string)
    (* any other truthy object: its [message] property, what [toString()]
       returns, and [JSON.stringify(error, null, 2)] *)
| JsOther (to_string : string).
    (* [undefined], [null], numbers, booleans; [String(error)] *)

Definition stringify_preferences (p : Preferences) : string :=
  JSON.object
    (JSON.member "autoSave" (Some (JSON.boolean (autoSave p))) ++
     JSON.member "showDebugInfo" (Some (JSON.boolean (showDebugInfo p)))).

Definition stringify_DemoData (d : DemoData) : string :=
  JSON.object
    (JSON.member "userInput" (Some (JSON.str (userInput d))) ++
     JSON.member "counter" (Some (JSON.num (counter d))) ++
     JSON.member "preferences" (Some (stringify_preferences (preferences d))) ++
     JSON.member "timestamp" (Some (JSON.str (timestamp d)))).

(** [JSON.stringify(state)] for a saved-state object. *)
Definition JSON_stringify (s : SavedState) : string :=
  JSON.object
    (JSON.member "demoData" (option_map stringify_DemoData (saved_demoData s)) ++
     JSON.member "saveCount" (option_map JSON.num (saved_saveCount s)) ++
     JSON.member "restoreCount" (option_map JSON.num (saved_restoreCount s))).

(** [String(error)], as a template literal computes it. *)
Definition String_of (e : JsValue) : string :=
  match e with
  | JsError name msg _ =>
      if negb (Js.truthy name) then msg
      else if negb (Js.truthy msg) then name
      else name ++ ": " ++ msg
  | JsString s => s
  | JsObject _ to_string _ => to_string
  | JsOther to_string => to_string
  end.

(** What the component asks of the JavaScript host. *)
Record Host := {
  Date_parse : string -> option Z;          (* [Date.parse], [None] for NaN *)
  toISOString : Z -> string;                (* [new Date(t).toISOString()] *)
  toLocaleTimeString : Z -> string;         (* [new Date(t).toLocaleTimeString()] *)
  Error_stack : string -> option string     (* the [stack] of [new Error(msg)] *)
}.

(** Component state ([PluginStateDemoState]). *)
Record PluginStateDemoState := {
  demoData : DemoData;
  isLoading : bool;
  error : string;
  errorInfo : option ErrorInfo;
  isInitializing : bool;
  isStateConfigured : bool;
  lastSaveTime : option string;
  lastRestoreTime : option string;
  saveCount : Z;
  restoreCount : Z;
  debugLogs : list string;
  activeTab : string;
  showErrorDetails : bool
}.

(** Field updates, as the partial objects passed to [setState]. *)
Definition set_demoData v s :=
  {| demoData := v; isLoading := isLoading s; error := error s; errorInfo := errorInfo s;
     isInitializing := isInitializing s; isStateConfigured := isStateConfigured s;
     lastSaveTime := lastSaveTime s; lastRestoreTime := lastRestoreTime s;
     saveCount := saveCount s; restoreCount := restoreCount s; debugLogs := debugLogs s;
     activeTab := activeTab s; showErrorDetails := showErrorDetails s |}.
Definition set_isLoading v s :=
  {| demoData := demoData s; isLoading := v; error := error s; errorInfo := errorInfo s;
     isInitializing := isInitializing s; isStateConfigured := isStateConfigured s;
     lastSaveTime := lastSaveTime s; lastRestoreTime := lastRestoreTime s;
     saveCount := saveCount s; restoreCount := restoreCount s; debugLogs := debugLogs s;
     activeTab := activeTab s; showErrorDetails := showErrorDetails s |}.
Definition set_error v s :=
  {| demoData := demoData s; isLoading := isLoading s; error := v; errorInfo := errorInfo s;
     isInitializing := isInitializing s; isStateConfigured := isStateConfigured s;
     lastSaveTime := lastSaveTime s; lastRestoreTime := lastRestoreTime s;
     saveCount := saveCount s; restoreCount := restoreCount s; debugLogs := debugLogs s;
     activeTab := activeTab s; showErrorDetails := showErrorDetails s |}.
Definition set_errorInfo v s :=
  {| demoData := demoData s; isLoading := isLoading s; error := error s; errorInfo := v;
     isInitializing := isInitializing s; isStateConfigured := isStateConfigured s;
     lastSaveTime := lastSaveTime s; lastRestoreTime := lastRestoreTime s;
     saveCount := saveCount s; restoreCount := restoreCount s; debugLogs := debugLogs s;
     activeTab := activeTab s; showErrorDetails := showErrorDetails s |}.
Definition set_isInitializing v s :=
  {| demoData := demoData s; isLoading := isLoading s; error := error s; errorInfo := errorInfo s;
     isInitializing := v; isStateConfigured := isStateConfigured s;
     lastSaveTime := lastSaveTime s; lastRestoreTime := lastRestoreTime s;
     saveCount := saveCount s; restoreCount := restoreCount s; debugLogs := debugLogs s;
     activeTab := activeTab s; showErrorDetails := showErrorDetails s |}.
Definition set_isStateConfigured v s :=
  {| demoData := demoData s; isLoading := isLoading s; error := error s; errorInfo := errorInfo s;
     isInitializing := isInitializing s; isStateConfigured := v;
     lastSaveTime := lastSaveTime s; lastRestoreTime := lastRestoreTime s;
     saveCount := saveCount s; restoreCount := restoreCount s; debugLogs := debugLogs s;
     activeTab := activeTab s; showErrorDetails := showErrorDetails s |}.
Definition set_lastSaveTime v s :=
  {| demoData := demoData s; isLoading := isLoading s; error := error s; errorInfo := errorInfo s;
     isInitializing := isInitializing s; isStateConfigured := isStateConfigured s;
     lastSaveTime := v; lastRestoreTime := lastRestoreTime s;
     saveCount := saveCount s; restoreCount := restoreCount s; debugLogs := debugLogs s;
     activeTab := activeTab s; showErrorDetails := showErrorDetails s |}.
Definition set_lastRestoreTime v s :=
  {| demoData := demoData s; isLoading := isLoading s; error := error s; errorInfo := errorInfo s;
     isInitializing := isInitializing s; isStateConfigured := isStateConfigured s;
     lastSaveTime := lastSaveTime s; lastRestoreTime := v;
     saveCount := saveCount s; restoreCount := restoreCount s; debugLogs := debugLogs s;
     activeTab := activeTab s; showErrorDetails := showErrorDetails s |}.
Definition set_saveCount v s :=
  {| demoData := demoData s; isLoading := isLoading s; error := error s; errorInfo := errorInfo s;
     isInitializing := isInitializing s; isStateConfigured := isStateConfigured s;
     lastSaveTime := lastSaveTime s; lastRestoreTime := lastRestoreTime s;
     saveCount := v; restoreCount := restoreCount s; debugLogs := debugLogs s;
     activeTab := activeTab s; showErrorDetails := showErrorDetails s |}.
Definition set_restoreCount v s :=
  {| demoData := demoData s; isLoading := isLoading s; error := error s; errorInfo := errorInfo s;
     isInitializing := isInitializing s; isStateConfigured := isStateConfigured s;
     lastSaveTime := lastSaveTime s; lastRestoreTime := lastRestoreTime s;
     saveCount := saveCount s; restoreCount := v; debugLogs := debugLogs s;
     activeTab := activeTab s; showErrorDetails := showErrorDetails s |}.
Definition set_debugLogs v s :=
  {| demoData := demoData s; isLoading := isLoading s; error := error s; errorInfo := errorInfo s;
     isInitializing := isInitializing s; isStateConfigured := isStateConfigured s;
     lastSaveTime := lastSaveTime s; lastRestoreTime := lastRestoreTime s;
     saveCount := saveCount s; restoreCount := restoreCount s; debugLogs := v;
     activeTab := activeTab s; showErrorDetails := showErrorDetails s |}.
Definition set_activeTab v s :=
  {| demoData := demoData s; isLoading := isLoading s; error := error s; errorInfo := errorInfo s;
     isInitializing := isInitializing s; isStateConfigured := isStateConfigured s;
     lastSaveTime := lastSaveTime s; lastRestoreTime := lastRestoreTime s;
     saveCount := saveCount s; restoreCount := restoreCount s; debugLogs := debugLogs s;
     activeTab := v; showErrorDetails := showErrorDetails s |}.
Definition set_showErrorDetails v s :=
  {| demoData := demoData s; isLoading := isLoading s; error := error s; errorInfo := errorInfo s;
     isInitializing := isInitializing s; isStateConfigured := isStateConfigured s;
     lastSaveTime := lastSaveTime s; lastRestoreTime := lastRestoreTime s;
     saveCount := saveCount s; restoreCount := restoreCount s; debugLogs := debugLogs s;
     activeTab := activeTab s; showErrorDetails := v |}.

(** [Partial<DemoData>], the argument of [updateDemoData]. *)
Record DemoDataUpdate := {
  upd_userInput : option string;
  upd_counter : option Z;
  upd_preferences : option Preferences;
  upd_timestamp : option string
}.

(** The configuration object passed to [configure]. *)
Inductive StateStrategy := session | persistent.
Inductive SchemaType := ty_string | ty_number | ty_boolean | ty_object | ty_array.
Inductive SchemaDefault := DefaultDemoData (d : DemoData) | DefaultNumber (n : Z).
Record SchemaEntry := {
  schema_type : SchemaType;
  required : bool;
  default : option SchemaDefault
}.
Record PluginStateConfig := {
  pluginId : string;
  stateStrategy : StateStrategy;
  preserveKeys : list string;
  stateSchema : list (string * SchemaEntry);
  maxStateSize : option Z
}.

(* ------------------------------------------------------------------ *)
(** ** The PluginState service and the world the component runs in *)

Inductive Completion (A : Type) :=
| Normal (a : A)
| Throw (e : JsValue).
Arguments Normal {A} a.
Arguments Throw {A} e.

(** A lifecycle callback the service ran while one of its calls was in
    flight.  [HookSave] and [HookRestore] carry [JSON.stringify(state)] of
    the callback's argument, [None] when that is not a string. *)
Inductive HookCall :=
| HookSave (json : option string)
| HookRestore (json : option string)
| HookClear.

Definition TimerId := nat.

Section Controller.

(** What the service keeps; opaque to the component. *)
Variable Store : Type.
Variable host : Host.

(** How an asynchronous service call settles: resolved or rejected, the
    service's store afterwards, the callbacks it ran, the time it took. *)
Record Settled (A : Type) := {
  outcome : Completion A;
  store_after : Store;
  hooks_run : list HookCall;
  elapsed : Z
}.
Arguments outcome {A} _.
Arguments store_after {A} _.
Arguments hooks_run {A} _.
Arguments elapsed {A} _.

Definition Unsubscribe := Store -> Completion unit * Store.

(** [PluginStateService], the methods the component calls.  [getState]
    resolves to [None] for a falsy value. *)
Record PluginStateService := {
  svc_configure : PluginStateConfig -> Store -> Completion unit * Store;
  svc_saveState : SavedState -> Store -> Settled unit;
  svc_getState : Store -> Settled (option SavedState);
  svc_clearState : Store -> Settled unit;
  svc_onSave : Store -> Completion Unsubscribe * Store;
  svc_onRestore : Store -> Completion Unsubscribe * Store;
  svc_onClear : Store -> Completion Unsubscribe * Store
}.

Record Services := { pluginState : option PluginStateService }.

Record Props := { services : option Services }.

Variable props : Props.

(** [services?.pluginState]. *)
Definition services_pluginState : option PluginStateService :=
  match services props with
  | Some s => pluginState s
  | None => None
  end.

(** The asynchronous calls made on the service, in order. *)
Inductive ServiceCall :=
| CallSaveState (s : SavedState)
| CallGetState
| CallClearState.

(** The component instance, the service's store, the clock and the pending
    timers.  [service_calls] and [save_invocations] are history: the
    asynchronous service calls made, and the instants at which
    [saveState()] was entered. *)
Record World := {
  state : PluginStateDemoState;
  pluginStateUnsubscribers : list Unsubscribe;
  autoSaveTimeout : option TimerId;
  store : Store;
  clock : Z;
  timers : list (TimerId * Z);
  next_timer : TimerId;
  service_calls : list ServiceCall;
  save_invocations : list Z
}.

Definition set_state v w :=
  {| state := v; pluginStateUnsubscribers := pluginStateUnsubscribers w;
     autoSaveTimeout := autoSaveTimeout w; store := store w; clock := clock w;
     timers := timers w; next_timer := next_timer w;
     service_calls := service_calls w; save_invocations := save_invocations w |}.
Definition set_pluginStateUnsubscribers v w :=
  {| state := state w; pluginStateUnsubscribers := v;
     autoSaveTimeout := autoSaveTimeout w; store := store w; clock := clock w;
     timers := timers w; next_timer := next_timer w;
     service_calls := service_calls w; save_invocations := save_invocations w |}.
Definition set_autoSaveTimeout v w :=
  {| state := state w; pluginStateUnsubscribers := pluginStateUnsubscribers w;
     autoSaveTimeout := v; store := store w; clock := clock w;
     timers := timers w; next_timer := next_timer w;
     service_calls := service_calls w; save_invocations := save_invocations w |}.
Definition set_store v w :=
  {| state := state w; pluginStateUnsubscribers := pluginStateUnsubscribers w;
     autoSaveTimeout := autoSaveTimeout w; store := v; clock := clock w;
     timers := timers w; next_timer := next_timer w;
     service_calls := service_calls w; save_invocations := save_invocations w |}.
Definition set_clock v w :=
  {| state := state w; pluginStateUnsubscribers := pluginStateUnsubscribers w;
     autoSaveTimeout := autoSaveTimeout w; store := store w; clock := v;
     timers := timers w; next_timer := next_timer w;
     service_calls := service_calls w; save_invocations := save_invocations w |}.
Definition set_timers v n w :=
  {| state := state w; pluginStateUnsubscribers := pluginStateUnsubscribers w;
     autoSaveTimeout := autoSaveTimeout w; store := store w; clock := clock w;
     timers := v; next_timer := n;
     service_calls := service_calls w; save_invocations := save_invocations w |}.
Definition set_service_calls v w :=
  {| state := state w; pluginStateUnsubscribers := pluginStateUnsubscribers w;
     autoSaveTimeout := autoSaveTimeout w; store := store w; clock := clock w;
     timers := timers w; next_timer := next_timer w;
     service_calls := v; save_invocations := save_invocations w |}.
Definition set_save_invocations v w :=
  {| state := state w; pluginStateUnsubscribers := pluginStateUnsubscribers w;
     autoSaveTimeout := autoSaveTimeout w; store := store w; clock := clock w;
     timers := timers w; next_timer := next_timer w;
     service_calls := service_calls w; save_invocations := v |}.

(** *** A state-and-exception monad over the world

    A [throw] keeps the updates made before it, as an exception leaves
    earlier [setState] calls in place. *)

Definition M (A : Type) : Type := World -> Completion A * World.

Definition ret {A} (a : A) : M A := fun w => (Normal a, w).

Definition bind {A B} (c : M A) (k : A -> M B) : M B :=
  fun w =>
    match c w with
    | (Normal a, w') => k a w'
    | (Throw e, w') => (Throw e, w')
    end.

Definition throw {A} (e : JsValue) : M A := fun w => (Throw e, w).

Definition try_catch {A} (body : M A) (handler : JsValue -> M A) : M A :=
  fun w =>
    match body w with
    | (Normal a, w') => (Normal a, w')
    | (Throw e, w') => handler e w'
    end.

Notation "x <- c ;; k" := (bind c (fun x => k))
  (at level 61, c at next level, right associativity).
Notation "c ;; k" := (bind c (fun _ => k))
  (at level 61, right associativity).

Definition when (b : bool) (c : M unit) : M unit := if b then c else ret tt.

Definition this_state : M PluginStateDemoState := fun w => (Normal (state w), w).

Definition setState (f : PluginStateDemoState -> PluginStateDemoState) : M unit :=
  fun w => (Normal tt, set_state (f (state w)) w).

(** [new Date()], as milliseconds. *)
Definition Date_now : M Z := fun w => (Normal (clock w), w).

Definition new_Error (msg : string) : JsValue :=
  JsError "Error" msg (Error_stack host msg).

(** *** The bounded debug log *)

Definition addDebugLog (message : string) : M unit :=
  now <- Date_now ;;
  let timestamp := toLocaleTimeString host now in
  let logEntry := "[" ++ timestamp ++ "] " ++ message in
  setState (fun prevState =>
    set_debugLogs (Js.slice_last 19 (debugLogs prevState) ++ [logEntry])%list prevState).

(** *** The error classifier *)

(** The [if / else if] chain on the message of an [Error]. *)
Definition categorize (message : string) : ErrorType :=
  if Js.includes message "Service not available" || Js.includes message "not configured"
  then service
  else if Js.includes message "validation" || Js.includes message "invalid"
  then validation
  else if Js.includes message "network" || Js.includes message "fetch"
  then network
  else unknown.

Definition handleError (error : JsValue) (operation : string) : M ErrorInfo :=
  let '(errorType, message, details, stack) :=
    match error with
    | JsError _ msg stk =>
        (categorize msg, msg, "", match stk with Some s => s | None => "" end)
    | JsString s =>
        (unknown, s, "", "")
    | JsObject msg to_string json =>
        (unknown,
         match msg with
         | Some m => if Js.truthy m then m else to_string
         | None => to_string
         end,
         json, "")
    | JsOther _ =>
        (unknown, "An unexpected error occurred", "", "")
    end in
  now <- Date_now ;;
  let errorInfo :=
    {| type := errorType; message := message; details := details;
       err_timestamp := toISOString host now; operation := operation;
       stack := stack |} in
  addDebugLog ("ERROR in " ++ operation ++ ": " ++ message) ;;
  setState (fun s =>
    set_isLoading false (set_errorInfo (Some errorInfo) (set_error message s))) ;;
  ret errorInfo.

Definition clearError : M unit :=
  setState (fun s =>
    set_showErrorDetails false (set_errorInfo None (set_error "" s))) ;;
  addDebugLog "Error cleared by user".

Definition toggleErrorDetails : M unit :=
  setState (fun prevState =>
    set_showErrorDetails (negb (showErrorDetails prevState)) prevState).

(** *** The local validator *)

Record ValidationResult := { isValid : bool; errors : list string }.

Definition validateDemoData (data : DemoData) : ValidationResult :=
  let errors : list string := [] in
  let errors :=
    if Js.length (userInput data) >? 1000
    then (errors ++ ["User input exceeds maximum length of 1000 characters"])%list
    else errors in
  let errors :=
    if (counter data <? -1000) || (counter data >? 1000)
    then (errors ++ ["Counter value must be between -1000 and 1000"])%list
    else errors in
  let errors :=
    if negb (Js.truthy (timestamp data)) || Js.isNaN (Date_parse host (timestamp data))
    then (errors ++ ["Invalid timestamp format"])%list
    else errors in
  {| isValid := (List.length errors =? 0)%nat; errors := errors |}.

(** *** Calls on the service *)

(** Run the callbacks the service invoked: each one logs (or, when
    [JSON.stringify] gave no string, fails inside its own [try]). *)
Definition run_hook (h : HookCall) : M unit :=
  match h with
  | HookSave (Some json) =>
      addDebugLog ("State saved: " ++ Js.substring0 100 json ++ "...")
  | HookRestore (Some json) =>
      addDebugLog ("State restored: " ++ Js.substring0 100 json ++ "...")
  | HookClear =>
      addDebugLog "State cleared"
  | HookSave None | HookRestore None => ret tt
  end.

Fixpoint run_hooks (hs : list HookCall) : M unit :=
  match hs with
  | [] => ret tt
  | h :: rest => run_hook h ;; run_hooks rest
  end.

(** [await call]: record the call, let the service act on its store, let
    time pass, run the callbacks it invoked, then resume or throw. *)
Definition await {A} (call : ServiceCall) (method : Store -> Settled A) : M A :=
  fun w =>
    let r := method (store w) in
    let w1 :=
      set_clock (clock w + elapsed r)
        (set_store (store_after r)
           (set_service_calls (service_calls w ++ [call]) w)) in
    match run_hooks (hooks_run r) w1 with
    | (_, w2) => (outcome r, w2)
    end.

(** A synchronous call on the service. *)
Definition call_sync {A} (method : Store -> Completion A * Store) : M A :=
  fun w => let '(r, st) := method (store w) in (r, set_store st w).

(** *** Configuration and lifecycle hooks *)

Definition default_demoData (now : Z) : DemoData :=
  {| userInput := ""; counter := 0;
     preferences := {| autoSave := true; showDebugInfo := true |};
     timestamp := toISOString host now |}.

Definition configurePluginState : M unit :=
  try_catch
    (match services props with
     | None => throw (new_Error "Services object not provided to component")
     | Some svcs =>
       match pluginState svcs with
       | None => throw (new_Error "PluginState service not available in services object")
       | Some svc =>
         addDebugLog "Configuring PluginState service..." ;;
         now <- Date_now ;;
         call_sync (svc_configure svc
           {| pluginId := "ServiceExample_PluginState";
              stateStrategy := session;
              preserveKeys := ["demoData"; "saveCount"; "restoreCount"];
              stateSchema :=
                [("demoData",
                  {| schema_type := ty_object; required := false;
                     default := Some (DefaultDemoData (default_demoData now)) |});
                 ("saveCount",
                  {| schema_type := ty_number; required := false;
                     default := Some (DefaultNumber 0) |});
                 ("restoreCount",
                  {| schema_type := ty_number; required := false;
                     default := Some (DefaultNumber 0) |})];
              maxStateSize := Some 10240 |}) ;;
         addDebugLog "Service configuration applied successfully" ;;
         try_catch
           (onSaveUnsubscribe <- call_sync (svc_onSave svc) ;;
            onRestoreUnsubscribe <- call_sync (svc_onRestore svc) ;;
            onClearUnsubscribe <- call_sync (svc_onClear svc) ;;
            (fun w => (Normal tt,
               set_pluginStateUnsubscribers
                 (pluginStateUnsubscribers w ++
                  [onSaveUnsubscribe; onRestoreUnsubscribe; onClearUnsubscribe]) w)) ;;
            addDebugLog "Lifecycle hooks registered successfully")
           (fun error =>
            addDebugLog
              ("Warning: Some lifecycle hooks failed to register: " ++ String_of error)) ;;
         setState (set_isStateConfigured true) ;;
         addDebugLog "PluginState service configured successfully"
       end
     end)
    (fun error =>
     addDebugLog "Failed to configure PluginState service" ;;
     throw error).

Definition cleanupServices : M unit :=
  (fun w =>
     let st := fold_left (fun st (unsubscribe : Unsubscribe) => snd (unsubscribe st))
                 (pluginStateUnsubscribers w) (store w) in
     (Normal tt, set_pluginStateUnsubscribers [] (set_store st w))) ;;
  addDebugLog "Services cleaned up".

(** *** Save, restore, clear *)

Definition saveState : M unit :=
  (fun w => (Normal tt, set_save_invocations (save_invocations w ++ [clock w]) w)) ;;
  try_catch
    (s <- this_state ;;
     when (Js.truthy (error s) || match errorInfo s with Some _ => true | None => false end)
       clearError ;;
     setState (set_isLoading true) ;;
     addDebugLog "Starting state save operation..." ;;
     match services_pluginState with
     | None => throw (new_Error "PluginState service not available for save operation")
     | Some svc =>
       s <- this_state ;;
       let validation := validateDemoData (demoData s) in
       if negb (isValid validation) then
         throw (new_Error ("Validation failed: " ++ Js.join ", " (errors validation)))
       else
         let stateToSave :=
           {| saved_demoData := Some (demoData s);
              saved_saveCount := Some (saveCount s + 1);
              saved_restoreCount := Some (restoreCount s) |} in
         let stateSize := Js.length (JSON_stringify stateToSave) in
         if stateSize >? 10240 then
           throw (new_Error ("State size (" ++ Js.Number_toString stateSize ++
                             " bytes) exceeds maximum allowed size (10240 bytes)"))
         else
           addDebugLog ("Saving state (" ++ Js.Number_toString stateSize ++ " bytes)...") ;;
           await (CallSaveState stateToSave) (svc_saveState svc stateToSave) ;;
           s <- this_state ;;
           now <- Date_now ;;
           setState (fun prev =>
             set_saveCount (saveCount s + 1)
               (set_lastSaveTime (Some (toLocaleTimeString host now))
                  (set_isLoading false prev))) ;;
           addDebugLog "State saved successfully"
     end)
    (fun error => handleError error "saveState" ;; ret tt).

Definition restoreState : M unit :=
  try_catch
    (s <- this_state ;;
     when (Js.truthy (error s) || match errorInfo s with Some _ => true | None => false end)
       clearError ;;
     setState (set_isLoading true) ;;
     addDebugLog "Starting state restore operation..." ;;
     match services_pluginState with
     | None => throw (new_Error "PluginState service not available for restore operation")
     | Some svc =>
       restoredState <- await CallGetState (svc_getState svc) ;;
       match restoredState with
       | Some restored =>
         s <- this_state ;;
         now <- Date_now ;;
         setState (fun prev =>
           set_isLoading false
             (set_lastRestoreTime (Some (toLocaleTimeString host now))
                (set_restoreCount
                   (match saved_restoreCount restored with Some n => n | None => 0 end + 1)
                   (set_saveCount
                      (match saved_saveCount restored with Some n => n | None => 0 end)
                      (set_demoData
                         (match saved_demoData restored with
                          | Some d => d
                          | None => demoData s
                          end)
                         prev))))) ;;
         addDebugLog "State restored successfully"
       | None =>
         setState (set_isLoading false) ;;
         addDebugLog "No saved state found"
       end
     end)
    (fun error => handleError error "restoreState" ;; ret tt).

Definition clearState : M unit :=
  try_catch
    (clearError ;;
     setState (set_isLoading true) ;;
     addDebugLog "Starting state clear operation..." ;;
     match services_pluginState with
     | None => throw (new_Error "PluginState service not available for clear operation")
     | Some svc =>
       await CallClearState (svc_clearState svc) ;;
       now <- Date_now ;;
       setState (fun prev =>
         set_isLoading false
           (set_lastRestoreTime None
              (set_lastSaveTime None
                 (set_restoreCount 0
                    (set_saveCount 0
                       (set_demoData (default_demoData now) prev)))))) ;;
       addDebugLog "State cleared successfully"
     end)
    (fun error => handleError error "clearState" ;; ret tt).

(** *** Timers and the debounced auto-save *)

(** [setTimeout(callback, delay)].  The component schedules one kind of
    callback only (the auto-save), so a pending timer is its identifier
    and the instant it is due. *)
Definition setTimeout (delay : Z) : M TimerId :=
  fun w =>
    (Normal (next_timer w),
     set_timers (timers w ++ [(next_timer w, clock w + delay)]) (S (next_timer w)) w).

(** [clearTimeout(id)]: no effect when [id] is not pending. *)
Definition clearTimeout (id : TimerId) : M unit :=
  fun w =>
    (Normal tt,
     set_timers (filter (fun p => negb (Nat.eqb (fst p) id)) (timers w)) (next_timer w) w).

Definition debouncedAutoSave : M unit :=
  (fun w =>
     match autoSaveTimeout w with
     | Some id => clearTimeout id w
     | None => (Normal tt, w)
     end) ;;
  id <- setTimeout 1000 ;;
  (fun w => (Normal tt, set_autoSaveTimeout (Some id) w)).

(** The function handed to [setTimeout]. *)
Definition autoSaveCallback : M unit :=
  addDebugLog "Auto-saving after user input..." ;;
  saveState.

Definition updateDemoData (updates : DemoDataUpdate) : M unit :=
  now <- Date_now ;;
  setState (fun prevState =>
    let d := demoData prevState in
    set_demoData
      {| userInput := match upd_userInput updates with Some v => v | None => userInput d end;
         counter := match upd_counter updates with Some v => v | None => counter d end;
         preferences :=
           match upd_preferences updates with Some v => v | None => preferences d end;
         timestamp := toISOString host now |}
      prevState) ;;
  s <- this_state ;;
  when (autoSave (preferences (demoData s))) debouncedAutoSave.

Definition handleTextChange (value : string) : M unit :=
  updateDemoData
    {| upd_userInput := Some value; upd_counter := None;
       upd_preferences := None; upd_timestamp := None |}.

Definition incrementCounter : M unit :=
  s <- this_state ;;
  updateDemoData
    {| upd_userInput := None; upd_counter := Some (counter (demoData s) + 1);
       upd_preferences := None; upd_timestamp := None |}.

Definition decrementCounter : M unit :=
  s <- this_state ;;
  updateDemoData
    {| upd_userInput := None; upd_counter := Some (counter (demoData s) - 1);
       upd_preferences := None; upd_timestamp := None |}.

Inductive PreferenceKey := key_autoSave | key_showDebugInfo.

Definition handlePreferenceChange (key : PreferenceKey) (value : bool) : M unit :=
  s <- this_state ;;
  let p := preferences (demoData s) in
  updateDemoData
    {| upd_userInput := None; upd_counter := None;
       upd_preferences :=
         Some match key with
              | key_autoSave => {| autoSave := value; showDebugInfo := showDebugInfo p |}
              | key_showDebugInfo => {| autoSave := autoSave p; showDebugInfo := value |}
              end;
       upd_timestamp := None |}.

Definition handleTabChange (tabId : string) : M unit :=
  setState (set_activeTab tabId).

(** The [Clear Logs] button of the debug tab. *)
Definition clearLogs : M unit := setState (set_debugLogs []).

(** *** Mounting and unmounting *)

Definition initial_state (now : Z) : PluginStateDemoState :=
  {| demoData := default_demoData now;
     isLoading := false; error := ""; errorInfo := None;
     isInitializing := true; isStateConfigured := false;
     lastSaveTime := None; lastRestoreTime := None;
     saveCount := 0; restoreCount := 0;
     debugLogs := []; activeTab := "overview"; showErrorDetails := false |}.

(** The instance right after [constructor(props)], at instant [now], with
    the service holding [st]. *)
Definition constructed (st : Store) (now : Z) : World :=
  {| state := initial_state now;
     pluginStateUnsubscribers := []; autoSaveTimeout := None;
     store := st; clock := now; timers := []; next_timer := 1%nat;
     service_calls := []; save_invocations := [] |}.

Definition componentDidMount : M unit :=
  try_catch
    (addDebugLog "Starting component initialization..." ;;
     configurePluginState ;;
     restoreState ;;
     setState (set_isInitializing false) ;;
     addDebugLog "Component initialized successfully")
    (fun error =>
     handleError error "componentDidMount" ;;
     setState (set_isInitializing false)).

Definition componentWillUnmount : M unit :=
  (fun w =>
     match autoSaveTimeout w with
     | Some id =>
         match clearTimeout id w with
         | (r, w') => (r, set_autoSaveTimeout None w')
         end
     | None => (Normal tt, w)
     end) ;;
  cleanupServices.

(** *** The event loop

    A handler runs to completion: the service call it awaits settles
    before the next event is taken. *)

(** Among the timers due by [t], the one due first (the one set first
    among equals). *)
Fixpoint next_due (t : Z) (l : list (TimerId * Z)) : option (TimerId * Z) :=
  match l with
  | [] => None
  | (id, due) :: rest =>
      match next_due t rest with
      | Some (id', due') =>
          if (due <=? t) && (due <=? due') then Some (id, due) else Some (id', due')
      | None => if due <=? t then Some (id, due) else None
      end
  end.

(** Fire one timer: it leaves the pending set, the clock is at least its
    due time, its callback runs. *)
Definition fire (id : TimerId) (due : Z) (w : World) : World :=
  match clearTimeout id w with
  | (_, w1) => snd (autoSaveCallback (set_clock (Z.max (clock w1) due) w1))
  end.

Fixpoint run_timers (fuel : nat) (t : Z) (w : World) : World :=
  match fuel with
  | O => w
  | S fuel' =>
      match next_due t (timers w) with
      | Some (id, due) => run_timers fuel' t (fire id due w)
      | None => w
      end
  end.

(** Let the clock reach [t], firing what falls due on the way. *)
Definition advance_to (t : Z) (w : World) : World :=
  let w' := run_timers (List.length (timers w)) t w in
  set_clock (Z.max (clock w') t) w'.

Inductive Event :=
| Mount
| Unmount
| ClickSave
| ClickRestore
| ClickClear
| ClickClearError
| ClickToggleDetails
| TextChange (value : string)
| Increment
| Decrement
| PreferenceChange (key : PreferenceKey) (value : bool)
| TabChange (tabId : string)
| ClickClearLogs
| TimeReaches (t : Z).

Definition handle (e : Event) (w : World) : World :=
  match e with
  | Mount => snd (componentDidMount w)
  | Unmount => snd (componentWillUnmount w)
  | ClickSave => snd (saveState w)
  | ClickRestore => snd (restoreState w)
  | ClickClear => snd (clearState w)
  | ClickClearError => snd (clearError w)
  | ClickToggleDetails => snd (toggleErrorDetails w)
  | TextChange value => snd (handleTextChange value w)
  | Increment => snd (incrementCounter w)
  | Decrement => snd (decrementCounter w)
  | PreferenceChange key value => snd (handlePreferenceChange key value w)
  | TabChange tabId => snd (handleTabChange tabId w)
  | ClickClearLogs => snd (clearLogs w)
  | TimeReaches t => advance_to t w
  end.

Definition run (es : list Event) (w : World) : World := fold_left (fun w e => handle e w) es w.

End Controller.

Arguments outcome {Store A} _.
Arguments store_after {Store A} _.
Arguments hooks_run {Store A} _.
Arguments elapsed {Store A} _.
Arguments Build_Settled {Store A} _ _ _ _.
Arguments svc_configure {Store} _ _ _.
Arguments svc_saveState {Store} _ _ _.
Arguments svc_getState {Store} _ _.
Arguments svc_clearState {Store} _ _.
Arguments svc_onSave {Store} _ _.
Arguments svc_onRestore {Store} _ _.
Arguments svc_onClear {Store} _ _.
Arguments pluginState {Store} _.
Arguments Build_Services {Store} _.
Arguments services {Store} _.
Arguments Build_Props {Store} _.
Arguments services_pluginState {Store} props.
Arguments state {Store} _.
Arguments pluginStateUnsubscribers {Store} _.
Arguments autoSaveTimeout {Store} _.
Arguments store {Store} _.
Arguments clock {Store} _.
Arguments timers {Store} _.
Arguments next_timer {Store} _.
Arguments service_calls {Store} _.
Arguments save_invocations {Store} _.
Arguments Build_World {Store} _ _ _ _ _ _ _ _ _.
Arguments set_state {Store} v w.
Arguments set_pluginStateUnsubscribers {Store} v w.
Arguments set_autoSaveTimeout {Store} v w.
Arguments set_store {Store} v w.
Arguments set_clock {Store} v w.
Arguments set_timers {Store} v n w.
Arguments set_service_calls {Store} v w.
Arguments set_save_invocations {Store} v w.
Arguments ret {Store A} a _.
Arguments bind {Store A B} c k _.
Arguments throw {Store A} e _.
Arguments try_catch {Store A} body handler _.
Arguments when {Store} b c _.
Arguments this_state {Store} _.
Arguments setState {Store} f _.
Arguments Date_now {Store} _.
Arguments addDebugLog {Store} host message _.
Arguments handleError {Store} host error operation _.
Arguments clearError {Store} host _.
Arguments toggleErrorDetails {Store} _.
Arguments run_hook {Store} host h _.
Arguments run_hooks {Store} host hs _.
Arguments await {Store} host {A} call method _.
Arguments call_sync {Store A} method _.
Arguments configurePluginState {Store} host props _.
Arguments cleanupServices {Store} host _.
Arguments saveState {Store} host props _.
Arguments restoreState {Store} host props _.
Arguments clearState {Store} host props _.
Arguments setTimeout {Store} delay _.
Arguments clearTimeout {Store} id _.
Arguments debouncedAutoSave {Store} _.
Arguments autoSaveCallback {Store} host props _.
Arguments updateDemoData {Store} host updates _.
Arguments handleTextChange {Store} host value _.
Arguments incrementCounter {Store} host _.
Arguments decrementCounter {Store} host _.
Arguments handlePreferenceChange {Store} host key value _.
Arguments handleTabChange {Store} tabId _.
Arguments clearLogs {Store} _.
Arguments constructed {Store} host st now.
Arguments componentDidMount {Store} host props _.
Arguments componentWillUnmount {Store} host _.
Arguments fire {Store} host props id due w.
Arguments run_timers {Store} host props fuel t w.
Arguments advance_to {Store} host props t w.
Arguments handle {Store} host props e w.
Arguments run {Store} host props es w.

(* ------------------------------------------------------------------ *)
(** ** A concrete host and the development mock of the service *)

Module Demo.

Definition digit (n : Z) : ascii := ascii_of_N (48 + Z.to_N (n mod 10)).

Definition pad2 (n : Z) : string := String (digit (n / 10)) (String (digit n) "").
Definition pad3 (n : Z) : string := String (digit (n / 100)) (pad2 n).
Definition pad4 (n : Z) : string := String (digit (n / 1000)) (pad3 n).

(** Year, month and day of a day number counted from 1970-01-01. *)
Definition civil_from_days (z : Z) : Z * Z * Z :=
  let z := z + 719468 in
  let era := z / 146097 in
  let doe := z - era * 146097 in
  let yoe := (doe - doe / 1460 + doe / 36524 - doe / 146096) / 365 in
  let doy := doe - (365 * yoe + yoe / 4 - yoe / 100) in
  let mp := (5 * doy + 2) / 153 in
  let d := doy - (153 * mp + 2) / 5 + 1 in
  let m := if mp <? 10 then mp + 3 else mp - 9 in
  ((yoe + era * 400 + (if m <=? 2 then 1 else 0)), m, d).

Definition time_of_day (t : Z) : string :=
  let ms := t mod 86400000 in
  pad2 (ms / 3600000) ++ ":" ++ pad2 (ms / 60000 mod 60) ++ ":" ++ pad2 (ms / 1000 mod 60).

Definition iso (t : Z) : string :=
  let '(y, m, d) := civil_from_days (t / 86400000) in
  pad4 y ++ "-" ++ pad2 m ++ "-" ++ pad2 d ++ "T" ++ time_of_day t ++ "." ++
  pad3 (t mod 1000) ++ "Z".

Definition is_digit (c : ascii) : bool :=
  let n := N_of_ascii c in ((48 <=? n) && (n <=? 57))%N.

(** Does [s] follow [pattern], where [d] in the pattern stands for any
    digit and every other character for itself?  Returns what is left. *)
Fixpoint scan (pattern s : string) : option string :=
  match pattern, s with
  | EmptyString, _ => Some s
  | String p pattern', String c s' =>
      if (if Ascii.eqb p "d" then is_digit c else Ascii.eqb p c)
      then scan pattern' s' else None
  | String _ _, EmptyString => None
  end.

Fixpoint ends_with_paren (s : string) : bool :=
  match s with
  | EmptyString => false
  | String c EmptyString => Ascii.eqb c ")"
  | String _ rest => ends_with_paren rest
  end.

(** A lenient [Date.parse]: a calendar date, then nothing, or a full ISO
    time, or a parenthesised remark (which a legacy date parser skips).
    The component only asks whether the result is NaN. *)
Definition parse (s : string) : option Z :=
  match scan "dddd-dd-dd" s with
  | None => None
  | Some rest =>
      match rest with
      | EmptyString => Some 0
      | _ =>
        match scan "Tdd:dd:dd.dddZ" rest with
        | Some EmptyString => Some 0
        | _ =>
          match scan " (" rest with
          | Some remark => if ends_with_paren remark then Some 0 else None
          | None => None
          end
        end
      end
  end.

Definition host : Host :=
  {| Date_parse := parse;
     toISOString := iso;
     toLocaleTimeString := time_of_day;
     Error_stack := fun msg => Some ("Error: " ++ msg) |}.

(** The mock of [index.tsx]: the saved object and how many callbacks of
    each kind are registered. *)
Record MockStore := {
  mockState : option SavedState;
  save_callbacks : nat;
  restore_callbacks : nat;
  clear_callbacks : nat
}.

Definition mock_unsubscribe (kind : nat) : Unsubscribe MockStore :=
  fun st =>
    (Normal tt,
     {| mockState := mockState st;
        save_callbacks := if Nat.eqb kind 0 then pred (save_callbacks st) else save_callbacks st;
        restore_callbacks :=
          if Nat.eqb kind 1 then pred (restore_callbacks st) else restore_callbacks st;
        clear_callbacks :=
          if Nat.eqb kind 2 then pred (clear_callbacks st) else clear_callbacks st |}).

Definition mockService : PluginStateService MockStore :=
  {| svc_configure := fun _ st => (Normal tt, st);
     svc_saveState := fun s st =>
       Build_Settled (Normal tt)
         {| mockState := Some s; save_callbacks := save_callbacks st;
            restore_callbacks := restore_callbacks st;
            clear_callbacks := clear_callbacks st |}
         (repeat (HookSave (Some (JSON_stringify s))) (save_callbacks st)) 5;
     svc_getState := fun st =>
       Build_Settled (Normal (mockState st)) st
         (match mockState st with
          | Some s => repeat (HookRestore (Some (JSON_stringify s))) (restore_callbacks st)
          | None => []
          end) 5;
     svc_clearState := fun st =>
       Build_Settled (Normal tt)
         {| mockState := None; save_callbacks := save_callbacks st;
            restore_callbacks := restore_callbacks st;
            clear_callbacks := clear_callbacks st |}
         (repeat HookClear (clear_callbacks st)) 5;
     svc_onSave := fun st =>
       (Normal (mock_unsubscribe 0),
        {| mockState := mockState st; save_callbacks := S (save_callbacks st);
           restore_callbacks := restore_callbacks st;
           clear_callbacks := clear_callbacks st |});
     svc_onRestore := fun st =>
       (Normal (mock_unsubscribe 1),
        {| mockState := mockState st; save_callbacks := save_callbacks st;
           restore_callbacks := S (restore_callbacks st);
           clear_callbacks := clear_callbacks st |});
     svc_onClear := fun st =>
       (Normal (mock_unsubscribe 2),
        {| mockState := mockState st; save_callbacks := save_callbacks st;
           restore_callbacks := restore_callbacks st;
           clear_callbacks := S (clear_callbacks st) |}) |}.

Definition mockServices : Props MockStore :=
  {| services := Some {| pluginState := Some mockService |} |}.

(** Props whose [services] object has no [pluginState]. *)
Definition noService : Props MockStore :=
  {| services := Some {| pluginState := None |} |}.

Definition emptyStore : MockStore :=
  {| mockState := None; save_callbacks := 0; restore_callbacks := 0; clear_callbacks := 0 |}.

End Demo.


(* ------------------------------------------------------------------ *)
(** ** Vocabulary of the statements *)

(** [hay] contains [needle] as a contiguous, case-sensitive substring. *)
Definition contains (hay needle : string) : Prop :=
  exists before after, hay = before ++ needle ++ after.

(** The first-match-wins policy on a message text. *)
Definition first_match (text : string) (t : ErrorType) : Prop :=
  let is_service := contains text "Service not available" \/ contains text "not configured" in
  let is_validation := contains text "validation" \/ contains text "invalid" in
  let is_network := contains text "network" \/ contains text "fetch" in
  (is_service -> t = service) /\
  (~ is_service -> is_validation -> t = validation) /\
  (~ is_service -> ~ is_validation -> is_network -> t = network) /\
  (~ is_service -> ~ is_validation -> ~ is_network -> t = unknown).

(** [error instanceof Error]. *)
Definition is_exception (e : JsValue) : bool :=
  match e with JsError _ _ _ => true | _ => false end.

(** [x || fallback] on a member that may be missing. *)
Definition or_else {A : Type} (x : option A) (fallback : A) : A :=
  match x with Some v => v | None => fallback end.

Section Vocabulary.

Context {Store : Type} (host : Host) (props : Props Store).

(** The envelope Save composes from the component state. *)
Definition envelope (s : PluginStateDemoState) : SavedState :=
  {| saved_demoData := Some (demoData s);
     saved_saveCount := Some (saveCount s + 1);
     saved_restoreCount := Some (restoreCount s) |}.

Definition envelope_size (s : PluginStateDemoState) : Z :=
  Js.length (JSON_stringify (envelope s)).

(** The entry [addDebugLog message] writes at instant [now]. *)
Definition log_entry (now : Z) (message : string) : string :=
  "[" ++ toLocaleTimeString host now ++ "] " ++ message.

(** The world with its debug log replaced. *)
Definition relog (logs : list string) (w : World Store) : World Store :=
  set_state (set_debugLogs logs (state w)) w.

Definition preserves {A : Type} (I : World Store -> Prop) (c : M Store A) : Prop :=
  forall w, I w -> I (snd (c w)).

Definition log_bounded (w : World Store) : Prop :=
  (List.length (debugLogs (state w)) <= 20)%nat.

(** At most one timer is pending, and [autoSaveTimeout] refers to it. *)
Definition timers_owned (w : World Store) : Prop :=
  timers w = [] \/
  exists id due, timers w = [(id, due)] /\ autoSaveTimeout w = Some id.

(** The worlds the component can be in: constructed, then any events. *)
Inductive reachable : World Store -> Prop :=
| reachable_constructed (st : Store) (now : Z) :
    reachable (constructed host st now)
| reachable_handle (e : Event) (w : World Store) :
    reachable w -> reachable (handle host props e w).

(** The [autoSave] flag as it stands once [updates] is merged in. *)
Definition autoSave_after (updates : DemoDataUpdate) (w : World Store) : bool :=
  autoSave (or_else (upd_preferences updates) (preferences (demoData (state w)))).

(** Save on an oversized envelope, as the specification words it: no call
    on the service, the computed size in the message, nothing persisted,
    counter and last-save time as before. *)
Definition oversize_save_fails (w : World Store) : Prop :=
  let w' := snd (saveState host props w) in
  let size := envelope_size (state w) in
  10240 < size ->
  service_calls w' = service_calls w /\
  store w' = store w /\
  (exists info,
      errorInfo (state w') = Some info /\
      contains (message info) (Js.Number_toString size)) /\
  saveCount (state w') = saveCount (state w) /\
  lastSaveTime (state w') = lastSaveTime (state w).

(** The error classifier on a failure value, as the specification words
    it: first match on the message text, the operation's name kept, the
    busy flag cleared. *)
Definition classified_by_message (error : JsValue) (op : string) (w : World Store) : Prop :=
  exists info,
    fst (handleError host error op w) = Normal info /\
    errorInfo (state (snd (handleError host error op w))) = Some info /\
    first_match (message info) (type info) /\
    operation info = op /\
    isLoading (state (snd (handleError host error op w))) = false.

End Vocabulary.

Module Scenario.

Fixpoint replicate (n : nat) (c : ascii) : string :=
  match n with
  | O => ""
  | S n' => String c (replicate n' c)
  end.

Definition with_demoData (d : DemoData) (w : World Demo.MockStore) : World Demo.MockStore :=
  set_state (set_demoData d (state w)) w.

Definition fresh : World Demo.MockStore := constructed Demo.host Demo.emptyStore 0.

(** 10241 characters of input: too long for the validator, and an
    envelope beyond the size ceiling. *)
Definition long_input : World Demo.MockStore :=
  with_demoData
    {| userInput := replicate (Z.to_nat 10241) "a"; counter := 0;
       preferences := {| autoSave := true; showDebugInfo := true |};
       timestamp := Demo.iso 0 |}
    fresh.

(** Valid data whose timestamp carries a long remark: the envelope is
    beyond the size ceiling although every validation rule holds. *)
Definition long_remark : World Demo.MockStore :=
  with_demoData
    {| userInput := "note"; counter := 7;
       preferences := {| autoSave := true; showDebugInfo := true |};
       timestamp := "2024-01-01 (" ++ replicate (Z.to_nat 10300) "x" ++ ")" |}
    fresh.

(** Everything wrong at once. *)
Definition all_wrong : DemoData :=
  {| userInput := replicate (Z.to_nat 1001) "a"; counter := 1001;
     preferences := {| autoSave := true; showDebugInfo := true |};
     timestamp := "yesterday" |}.

(** A store holding an envelope with [restoreCount = 3] and no
    [demoData]. *)
Definition restored_three_times : Demo.MockStore :=
  {| Demo.mockState :=
       Some {| saved_demoData := None; saved_saveCount := Some 5;
               saved_restoreCount := Some 3 |};
     Demo.save_callbacks := 0; Demo.restore_callbacks := 1; Demo.clear_callbacks := 0 |}.

Definition text_update (value : string) : DemoDataUpdate :=
  {| upd_userInput := Some value; upd_counter := None;
     upd_preferences := None; upd_timestamp := None |}.

(** A world whose log is full: one oldest entry and nineteen later
    ones. *)
Definition full_log : World Demo.MockStore :=
  relog ("oldest" :: repeat "later" 19) fresh.

End Scenario.


(* ------------------------------------------------------------------ *)
(** ** Further vocabulary: outcomes of the operations *)

(** The category [handleError] gives a failure value. *)
Definition category_of (e : JsValue) : ErrorType :=
  match e with
  | JsError _ msg _ => categorize msg
  | _ => unknown
  end.

(** The error is on display as its record has it. *)
Definition error_consistent (s : PluginStateDemoState) : Prop :=
  error s = match errorInfo s with Some info => message info | None => "" end.

(** The configuration [configurePluginState] hands to [configure] at
    instant [now]. *)
Definition plugin_config (host : Host) (now : Z) : PluginStateConfig :=
  {| pluginId := "ServiceExample_PluginState";
     stateStrategy := session;
     preserveKeys := ["demoData"; "saveCount"; "restoreCount"];
     stateSchema :=
       [("demoData",
         {| schema_type := ty_object; required := false;
            default := Some (DefaultDemoData (default_demoData host now)) |});
        ("saveCount",
         {| schema_type := ty_number; required := false;
            default := Some (DefaultNumber 0) |});
        ("restoreCount",
         {| schema_type := ty_number; required := false;
            default := Some (DefaultNumber 0) |})];
     maxStateSize := Some 10240 |}.

(** The component state up to the debug log and the configured flag. *)
Definition same_but_log_and_configured (s s' : PluginStateDemoState) : Prop :=
  exists logs configured,
    s' = set_isStateConfigured configured (set_debugLogs logs s).

(** How the component state stands between two handlers. *)
Definition quiescent (s : PluginStateDemoState) : Prop :=
  error_consistent s /\ isLoading s = false.

(** Writing several entries to the debug log, one after the other. *)
Definition log_all {Store : Type} (host : Host) (messages : list string)
           (w : World Store) : World Store :=
  fold_left (fun w message => snd (addDebugLog host message w)) messages w.

(** Services that fail, for trying the failure paths. *)
Module Doubles.

Definition timeout : JsValue := JsError "Error" "network timeout" None.

(** The mock with its three asynchronous calls rejecting. *)
Definition offlineService : PluginStateService Demo.MockStore :=
  {| svc_configure := svc_configure Demo.mockService;
     svc_saveState := fun _ st => Build_Settled (Throw timeout) st [] 3000;
     svc_getState := fun st => Build_Settled (Throw timeout) st [] 3000;
     svc_clearState := fun st => Build_Settled (Throw timeout) st [] 3000;
     svc_onSave := svc_onSave Demo.mockService;
     svc_onRestore := svc_onRestore Demo.mockService;
     svc_onClear := svc_onClear Demo.mockService |}.

Definition offline : Props Demo.MockStore :=
  {| services := Some {| pluginState := Some offlineService |} |}.

(** The mock with [onRestore] throwing. *)
Definition flakyService : PluginStateService Demo.MockStore :=
  {| svc_configure := svc_configure Demo.mockService;
     svc_saveState := svc_saveState Demo.mockService;
     svc_getState := svc_getState Demo.mockService;
     svc_clearState := svc_clearState Demo.mockService;
     svc_onSave := svc_onSave Demo.mockService;
     svc_onRestore := fun st => (Throw (JsString "hooks are not supported"), st);
     svc_onClear := svc_onClear Demo.mockService |}.

Definition flaky : Props Demo.MockStore :=
  {| services := Some {| pluginState := Some flakyService |} |}.

(** The mock with [configure] throwing. *)
Definition strictService : PluginStateService Demo.MockStore :=
  {| svc_configure := fun _ st => (Throw (JsError "Error" "schema rejected" None), st);
     svc_saveState := svc_saveState Demo.mockService;
     svc_getState := svc_getState Demo.mockService;
     svc_clearState := svc_clearState Demo.mockService;
     svc_onSave := svc_onSave Demo.mockService;
     svc_onRestore := svc_onRestore Demo.mockService;
     svc_onClear := svc_onClear Demo.mockService |}.

Definition strict : Props Demo.MockStore :=
  {| services := Some {| pluginState := Some strictService |} |}.

(** Data the validator accepts. *)
Definition tidy : World Demo.MockStore :=
  Scenario.with_demoData
    {| userInput := "hello"; counter := 1000;
       preferences := {| autoSave := true; showDebugInfo := true |};
       timestamp := Demo.iso 0 |}
    Scenario.fresh.

Definition autoSave_off : DemoDataUpdate :=
  {| upd_userInput := None; upd_counter := None;
     upd_preferences := Some {| autoSave := false; showDebugInfo := true |};
     upd_timestamp := None |}.

End Doubles.

(* ------------------------------------------------------------------ *)
(** ** Strings: [includes] is substring containment *)

Lemma prefix_append (n b : string) : String.prefix n (n ++ b) = true.
Proof.
  induction n as [|c n IH]; simpl.
  - destruct b; reflexivity.
  - destruct (ascii_dec c c) as [_|ne]; [exact IH | now elim ne].
Qed.

Lemma prefix_split (n h : string) :
  String.prefix n h = true -> exists b, h = n ++ b.
Proof.
  revert h; induction n as [|c n IH]; intros h H.
  - exists h; reflexivity.
  - destruct h as [|c' h]; simpl in H; [discriminate|].
    destruct (ascii_dec c c') as [->|]; [|discriminate].
    destruct (IH _ H) as [b ->]. exists b; reflexivity.
Qed.

Lemma includes_prefix (h n : string) :
  String.prefix n h = true -> Js.includes h n = true.
Proof.
  destruct h; simpl; intro H; [exact H | rewrite H; reflexivity].
Qed.

Lemma includes_append (a n b : string) : Js.includes (a ++ n ++ b) n = true.
Proof.
  induction a as [|c a IH]; simpl.
  - apply includes_prefix, prefix_append.
  - rewrite IH. apply orb_true_r.
Qed.

Lemma includes_split (h n : string) :
  Js.includes h n = true -> exists a b, h = a ++ n ++ b.
Proof.
  induction h as [|c h IH]; intro H.
  - destruct (prefix_split _ _ H) as [b Hb]. exists "", b; exact Hb.
  - cbn [Js.includes] in H. apply orb_true_iff in H. destruct H as [H|H].
    + destruct (prefix_split _ _ H) as [b Hb]. exists "", b; exact Hb.
    + destruct (IH H) as (a & b & ->). exists (String c a), b; reflexivity.
Qed.

Lemma includes_contains (hay needle : string) :
  Js.includes hay needle = true <-> contains hay needle.
Proof.
  split.
  - apply includes_split.
  - intros (a & b & ->). apply includes_append.
Qed.

Lemma slice_last_length {A : Type} (n : nat) (l : list A) :
  List.length (Js.slice_last n l) = Nat.min n (List.length l).
Proof. unfold Js.slice_last. rewrite length_skipn. lia. Qed.

Lemma slice_last_all {A : Type} (n : nat) (l : list A) :
  (List.length l <= n)%nat -> Js.slice_last n l = l.
Proof.
  intro H. unfold Js.slice_last.
  replace (List.length l - n)%nat with 0%nat by lia. reflexivity.
Qed.

Lemma slice_last_drop_oldest {A : Type} (n : nat) (oldest : A) (rest : list A) :
  List.length rest = n -> Js.slice_last n (oldest :: rest) = rest.
Proof.
  intro H. unfold Js.slice_last. simpl List.length. rewrite H.
  replace (S n - n)%nat with 1%nat by lia. reflexivity.
Qed.


(* ------------------------------------------------------------------ *)
(** ** The monad and the bounded log, in closed form *)

Section Kit.

Context {Store : Type} (host : Host) (props : Props Store).

Lemma addDebugLog_relog (message : string) (w : World Store) :
  addDebugLog host message w =
  (Normal tt,
   relog (Js.slice_last 19 (debugLogs (state w)) ++ [log_entry host (clock w) message]) w).
Proof. reflexivity. Qed.

Lemma relog_same (w : World Store) : relog (debugLogs (state w)) w = w.
Proof. destruct w as [s ? ? ? ? ? ? ? ?]; destruct s; reflexivity. Qed.

Lemma run_hook_relog (h : HookCall) (w : World Store) :
  exists logs, run_hook host h w = (Normal tt, relog logs w).
Proof.
  destruct h as [[json|]|[json|]|]; simpl;
    try (rewrite addDebugLog_relog; eexists; reflexivity);
    exists (debugLogs (state w)); rewrite relog_same; reflexivity.
Qed.

Lemma run_hooks_relog (hs : list HookCall) (w : World Store) :
  exists logs, run_hooks host hs w = (Normal tt, relog logs w).
Proof.
  revert w; induction hs as [|h hs IH]; intro w; simpl.
  - exists (debugLogs (state w)); rewrite relog_same; reflexivity.
  - unfold bind. destruct (run_hook_relog h w) as [l1 ->].
    destruct (IH (relog l1 w)) as [l2 ->]. exists l2. reflexivity.
Qed.

(** An awaited call, in closed form: the call is recorded, the store and
    the clock move, and the callbacks only rewrite the log. *)
Lemma await_closed {A} (call : ServiceCall) (method : Store -> Settled Store A)
      (w : World Store) :
  exists logs,
    await host call method w =
    (outcome (method (store w)),
     relog logs
       (set_clock (clock w + elapsed (method (store w)))
          (set_store (store_after (method (store w)))
             (set_service_calls (service_calls w ++ [call]) w)))).
Proof.
  unfold await.
  destruct (run_hooks_relog (hooks_run (method (store w)))
              (set_clock (clock w + elapsed (method (store w)))
                 (set_store (store_after (method (store w)))
                    (set_service_calls (service_calls w ++ [call]) w))))
    as [logs ->].
  exists logs. reflexivity.
Qed.

(** *** Invariants through the monad *)

Lemma preserves_ret {A} (I : World Store -> Prop) (a : A) : preserves I (ret a).
Proof. intros w H; exact H. Qed.

Lemma preserves_throw {A} (I : World Store -> Prop) (e : JsValue) :
  preserves I (throw (A := A) e).
Proof. intros w H; exact H. Qed.

Lemma preserves_bind {A B} (I : World Store -> Prop) (c : M Store A) (k : A -> M Store B) :
  preserves I c -> (forall a, preserves I (k a)) -> preserves I (bind c k).
Proof.
  intros Hc Hk w H. unfold bind. specialize (Hc w H).
  destruct (c w) as [[a|e] w']; simpl in *; [apply Hk; exact Hc | exact Hc].
Qed.

Lemma preserves_try_catch {A} (I : World Store -> Prop)
      (body : M Store A) (handler : JsValue -> M Store A) :
  preserves I body -> (forall e, preserves I (handler e)) ->
  preserves I (try_catch body handler).
Proof.
  intros Hb Hh w H. unfold try_catch. specialize (Hb w H).
  destruct (body w) as [[a|e] w']; simpl in *; [exact Hb | apply Hh; exact Hb].
Qed.

Lemma preserves_when (I : World Store -> Prop) (b : bool) (c : M Store unit) :
  preserves I c -> preserves I (when b c).
Proof. intros Hc. destruct b; [exact Hc | apply preserves_ret]. Qed.

Lemma preserves_this_state (I : World Store -> Prop) : preserves I this_state.
Proof. intros w H; exact H. Qed.

Lemma preserves_Date_now (I : World Store -> Prop) : preserves I Date_now.
Proof. intros w H; exact H. Qed.

End Kit.

(** Walk a monadic program, leaving its primitive steps to [leaf]. *)
Ltac walk leaf :=
  cbv zeta;
  lazymatch goal with
  | |- preserves _ (bind _ _) =>
      apply preserves_bind; [walk leaf | intro; walk leaf]
  | |- preserves _ (try_catch _ _) =>
      apply preserves_try_catch; [walk leaf | intro; walk leaf]
  | |- preserves _ (when _ _) => apply preserves_when; walk leaf
  | |- preserves _ (ret _) => apply preserves_ret
  | |- preserves _ (throw _) => apply preserves_throw
  | |- preserves _ this_state => apply preserves_this_state
  | |- preserves _ Date_now => apply preserves_Date_now
  | |- preserves _ (match ?x with _ => _ end) => destruct x; walk leaf
  | |- _ => leaf
  end.

Section Invariant.

Context {Store : Type} (host : Host) (props : Props Store).

(** An invariant that looks at the component state through the size of
    the debug log at most, and at none of the store, the clock, the call
    history or the unsubscribe handles. *)
Variable I : World Store -> Prop.
Hypothesis I_state : forall w s',
  (List.length (debugLogs s') <= 20)%nat \/ debugLogs s' = debugLogs (state w) ->
  I w -> I (set_state s' w).
Hypothesis I_store : forall w v, I w -> I (set_store v w).
Hypothesis I_clock : forall w v, I w -> I (set_clock v w).
Hypothesis I_calls : forall w v, I w -> I (set_service_calls v w).
Hypothesis I_unsubscribers : forall w v, I w -> I (set_pluginStateUnsubscribers v w).

Lemma keeps_setState (f : PluginStateDemoState -> PluginStateDemoState) :
  (forall s, debugLogs (f s) = debugLogs s) -> preserves I (setState f).
Proof. intros Hf w H. apply I_state; [right; apply Hf | exact H]. Qed.

Lemma keeps_relog (logs : list string) (w : World Store) :
  (List.length logs <= 20)%nat -> I w -> I (relog logs w).
Proof. intros Hl H. apply I_state; [left; exact Hl | exact H]. Qed.

Lemma keeps_addDebugLog (message : string) : preserves I (addDebugLog host message).
Proof.
  intros w H. rewrite addDebugLog_relog. apply keeps_relog; [|exact H].
  rewrite length_app, slice_last_length. cbn [List.length]. lia.
Qed.

Lemma keeps_run_hook (h : HookCall) : preserves I (run_hook host h).
Proof.
  destruct h as [[json|]|[json|]|]; simpl;
    first [apply keeps_addDebugLog | apply preserves_ret].
Qed.

Lemma keeps_run_hooks (hs : list HookCall) : preserves I (run_hooks host hs).
Proof.
  induction hs as [|h hs IH]; simpl.
  - apply preserves_ret.
  - apply preserves_bind; [apply keeps_run_hook | intros _; exact IH].
Qed.

Lemma keeps_await {A} (call : ServiceCall) (method : Store -> Settled Store A) :
  preserves I (await host call method).
Proof.
  intros w H. unfold await.
  pose proof (keeps_run_hooks (hooks_run (method (store w)))
                (set_clock (clock w + elapsed (method (store w)))
                   (set_store (store_after (method (store w)))
                      (set_service_calls (service_calls w ++ [call]) w)))) as K.
  destruct (run_hooks host _ _) as [r w2]. simpl in *.
  apply K. apply I_clock, I_store, I_calls, H.
Qed.

Lemma keeps_call_sync {A} (method : Store -> Completion A * Store) :
  preserves I (call_sync method).
Proof.
  intros w H. unfold call_sync. destruct (method (store w)) as [r st]. simpl.
  apply I_store, H.
Qed.

Ltac leaf :=
  first
    [ apply keeps_addDebugLog
    | apply keeps_await
    | apply keeps_call_sync
    | apply keeps_setState; intro; reflexivity
    | (intros ? ?; simpl; first [assumption | apply I_unsubscribers; assumption
                                | apply I_unsubscribers, I_store; assumption]) ].

Lemma keeps_handleError (error : JsValue) (op : string) :
  preserves I (handleError host error op).
Proof. unfold handleError. destruct error; walk leaf. Qed.

Lemma keeps_clearError : preserves I (clearError host).
Proof. unfold clearError. walk leaf. Qed.

Lemma keeps_toggleErrorDetails : preserves I toggleErrorDetails.
Proof. unfold toggleErrorDetails. walk leaf. Qed.

Lemma keeps_handleTabChange (tabId : string) : preserves I (handleTabChange tabId).
Proof. unfold handleTabChange. walk leaf. Qed.

Lemma keeps_clearLogs : preserves I clearLogs.
Proof. intros w H. apply I_state; [left; simpl; lia | exact H]. Qed.

Ltac leaf' :=
  first [ apply keeps_handleError | apply keeps_clearError | leaf ].

Lemma keeps_configurePluginState : preserves I (configurePluginState host props).
Proof. unfold configurePluginState. walk leaf'. Qed.

Lemma keeps_cleanupServices : preserves I (cleanupServices host).
Proof. unfold cleanupServices. walk leaf'. Qed.

Lemma keeps_restoreState : preserves I (restoreState host props).
Proof. unfold restoreState. walk leaf'. Qed.

Lemma keeps_clearState : preserves I (clearState host props).
Proof. unfold clearState. walk leaf'. Qed.

Lemma keeps_componentDidMount : preserves I (componentDidMount host props).
Proof.
  unfold componentDidMount.
  walk ltac:(first [ apply keeps_configurePluginState | apply keeps_restoreState | leaf' ]).
Qed.

(** Save records its own entry first; the rest is as above. *)
Lemma keeps_saveState_entered (w : World Store) :
  I (set_save_invocations (save_invocations w ++ [clock w]) w) ->
  I (snd (saveState host props w)).
Proof.
  intro H. unfold saveState. unfold bind at 1.
  match goal with
  | |- I (snd (try_catch ?body ?handler ?w1)) =>
      assert (K : preserves I (try_catch body handler)) by walk leaf'
  end.
  apply K, H.
Qed.

Hypothesis I_saves : forall w v, I w -> I (set_save_invocations v w).

Lemma keeps_saveState : preserves I (saveState host props).
Proof. intros w H. apply keeps_saveState_entered, I_saves, H. Qed.

Lemma keeps_autoSaveCallback : preserves I (autoSaveCallback host props).
Proof.
  unfold autoSaveCallback.
  apply preserves_bind; [apply keeps_addDebugLog | intros _; apply keeps_saveState].
Qed.

Hypothesis I_timers : forall w v n, I w -> I (set_timers v n w).
Hypothesis I_autoSaveTimeout : forall w v, I w -> I (set_autoSaveTimeout v w).

Lemma keeps_debouncedAutoSave : preserves I debouncedAutoSave.
Proof.
  unfold debouncedAutoSave.
  walk ltac:(intros w H; try destruct (autoSaveTimeout w); simpl;
             first [assumption | apply I_timers; assumption
                   | apply I_autoSaveTimeout; assumption]).
Qed.

Lemma keeps_updateDemoData (updates : DemoDataUpdate) :
  preserves I (updateDemoData host updates).
Proof.
  unfold updateDemoData. walk ltac:(first [apply keeps_debouncedAutoSave | leaf]).
Qed.

Lemma keeps_componentWillUnmount : preserves I (componentWillUnmount host).
Proof.
  unfold componentWillUnmount.
  apply preserves_bind; [|intros _; apply keeps_cleanupServices].
  intros w H. destruct (autoSaveTimeout w); simpl; [|exact H].
  apply I_autoSaveTimeout, I_timers, H.
Qed.

Lemma keeps_fire (id : TimerId) (due : Z) (w : World Store) :
  I w -> I (fire host props id due w).
Proof.
  intro H. unfold fire, clearTimeout.
  apply keeps_autoSaveCallback, I_clock, I_timers, H.
Qed.

Lemma keeps_run_timers (fuel : nat) (t : Z) (w : World Store) :
  I w -> I (run_timers host props fuel t w).
Proof.
  revert w; induction fuel as [|fuel IH]; intros w H; simpl; [exact H|].
  destruct (next_due t (timers w)) as [[id due]|]; [|exact H].
  apply IH, keeps_fire, H.
Qed.

Lemma keeps_advance_to (t : Z) (w : World Store) :
  I w -> I (advance_to host props t w).
Proof. intro H. unfold advance_to. apply I_clock, keeps_run_timers, H. Qed.

Lemma keeps_handle (e : Event) (w : World Store) :
  I w -> I (handle host props e w).
Proof.
  intro H. destruct e; simpl.
  - apply keeps_componentDidMount, H.
  - apply keeps_componentWillUnmount, H.
  - apply keeps_saveState, H.
  - apply keeps_restoreState, H.
  - apply keeps_clearState, H.
  - apply keeps_clearError, H.
  - apply keeps_toggleErrorDetails, H.
  - apply keeps_updateDemoData, H.
  - unfold incrementCounter, bind, this_state. apply keeps_updateDemoData, H.
  - unfold decrementCounter, bind, this_state. apply keeps_updateDemoData, H.
  - unfold handlePreferenceChange, bind, this_state. apply keeps_updateDemoData, H.
  - apply keeps_handleTabChange, H.
  - apply keeps_clearLogs, H.
  - apply keeps_advance_to, H.
Qed.

End Invariant.

(* ------------------------------------------------------------------ *)
(** ** The error classifier *)

Section Classifier.

Context {Store : Type} (host : Host).

Lemma either_includes (text a b : string) :
  Js.includes text a || Js.includes text b = true <-> contains text a \/ contains text b.
Proof. rewrite orb_true_iff, !includes_contains. reflexivity. Qed.

Lemma categorize_first_match (text : string) : first_match text (categorize text).
Proof.
  unfold first_match, categorize.
  destruct (Js.includes text "Service not available" || Js.includes text "not configured") eqn:S1;
  destruct (Js.includes text "validation" || Js.includes text "invalid") eqn:S2;
  destruct (Js.includes text "network" || Js.includes text "fetch") eqn:S3;
  repeat match goal with
         | H : _ || _ = true |- _ => apply either_includes in H
         | H : _ || _ = false |- _ =>
             apply not_true_iff_false in H; rewrite either_includes in H
         end;
  repeat split; intros; try reflexivity; tauto.
Qed.

(** [handleError] always returns its record, stores it, and clears the
    busy flag. *)
Lemma handleError_returns (error : JsValue) (op : string) (w : World Store) :
  exists info,
    handleError host error op w =
    (Normal info,
     set_state
       (set_isLoading false
          (set_errorInfo (Some info)
             (set_error (message info)
                (set_debugLogs
                   (Js.slice_last 19 (debugLogs (state w)) ++
                    [log_entry host (clock w) ("ERROR in " ++ op ++ ": " ++ message info)])
                   (state w))))) w) /\
    operation info = op /\
    err_timestamp info = toISOString host (clock w) /\
    match error with
    | JsError _ msg stk =>
        type info = categorize msg /\ message info = msg /\ details info = "" /\
        stack info = or_else stk ""
    | JsString s =>
        type info = unknown /\ message info = s /\ details info = "" /\ stack info = ""
    | JsObject msg to_string json =>
        type info = unknown /\ details info = json /\ stack info = "" /\
        message info =
          match msg with
          | Some m => if Js.truthy m then m else to_string
          | None => to_string
          end
    | JsOther _ =>
        type info = unknown /\ message info = "An unexpected error occurred" /\
        details info = "" /\ stack info = ""
    end.
Proof.
  destruct error;
    cbv [handleError bind Date_now addDebugLog setState ret];
    eexists;
    (split; [apply (f_equal2 pair); [reflexivity | unfold set_state; simpl; reflexivity]|]);
    simpl; repeat split.
Qed.

(** C9, as amended.  For every failure value the error classifier returns
    a record that carries the name of the operation in progress, and it
    clears the busy flag; when the failure is an exception object (an
    [Error]), the record's category is the first match on the exception's
    message: service for "Service not available" or "not configured",
    else validation for "validation" or "invalid", else network for
    "network" or "fetch", else unknown. *)
Theorem handleError_classifies_exceptions
        (error : JsValue) (op : string) (w : World Store) :
  exists info,
    fst (handleError host error op w) = Normal info /\
    errorInfo (state (snd (handleError host error op w))) = Some info /\
    operation info = op /\
    isLoading (state (snd (handleError host error op w))) = false /\
    forall name msg stk,
      error = JsError name msg stk ->
      message info = msg /\ first_match msg (type info).
Proof.
  destruct (handleError_returns error op w) as (info & E & Hop & _ & Hkind).
  exists info. rewrite E. simpl.
  split; [reflexivity|]. split; [reflexivity|]. split; [exact Hop|]. split; [reflexivity|].
  intros name msg stk ->. destruct Hkind as (-> & -> & _).
  split; [reflexivity | apply categorize_first_match].
Qed.

(** C10.  A failure value that is not an exception object is given the
    category unknown whatever its message says; for a plain string the
    message is the string and the details are empty. *)
Theorem handleError_non_exception_unknown
        (error : JsValue) (op : string) (w : World Store) :
  is_exception error = false ->
  exists info,
    fst (handleError host error op w) = Normal info /\
    errorInfo (state (snd (handleError host error op w))) = Some info /\
    type info = unknown /\
    forall s, error = JsString s -> message info = s /\ details info = "".
Proof.
  intro Hne.
  destruct (handleError_returns error op w) as (info & E & _ & _ & Hkind).
  exists info. rewrite E. simpl.
  split; [reflexivity|]. split; [reflexivity|].
  destruct error; try discriminate; (split; [tauto|]);
    intros s' [= <-]; tauto.
Qed.

End Classifier.

(** C9 as stated fails on a plain string: "network down" mentions the
    network, and is classified unknown. *)
Lemma classified_by_message_counterexample :
  ~ classified_by_message Demo.host (JsString "network down") "saveState" Scenario.fresh.
Proof.
  intros (info & E & _ & (_ & _ & Hnet & _) & _).
  injection E as <-.
  assert (unknown = network) by
    (apply Hnet; [ intros [H|H] | intros [H|H] | left ];
     try (apply includes_contains in H; discriminate H);
     apply includes_contains; reflexivity).
  discriminate.
Qed.

Lemma handleError_classifies_exceptions_witness :
  exists info,
    fst (handleError Demo.host (JsError "Error" "network timeout" None) "saveState"
           Scenario.fresh) = Normal info /\
    type info = network /\ operation info = "saveState".
Proof.
  destruct (handleError_classifies_exceptions Demo.host
              (JsError "Error" "network timeout" None) "saveState" Scenario.fresh)
    as (info & E & _ & Hop & _ & Hmsg).
  exists info. repeat split; [exact E | | exact Hop].
  destruct (Hmsg _ _ _ eq_refl) as (_ & _ & _ & Hnet & _).
  apply Hnet; [ intros [H|H] | intros [H|H] | left ];
    try (apply includes_contains in H; discriminate H);
    apply includes_contains; reflexivity.
Defined.

Lemma handleError_non_exception_unknown_witness :
  exists info,
    fst (handleError Demo.host (JsString "network down") "saveState" Scenario.fresh)
      = Normal info /\
    type info = unknown /\ message info = "network down" /\ details info = "".
Proof.
  destruct (handleError_non_exception_unknown Demo.host
              (JsString "network down") "saveState" Scenario.fresh eq_refl)
    as (info & E & _ & Hty & Hs).
  exists info. destruct (Hs _ eq_refl). repeat split; assumption.
Defined.

(* ------------------------------------------------------------------ *)
(** ** The local validator *)

Ltac absurd_eq :=
  solve [ match goal with H : _ = _ |- _ => discriminate H end ].

Section Validator.

Variable host : Host.

(** The violation list is the three rules' messages, each present exactly
    when its own rule is broken, in the order the rules are checked. *)
Lemma validateDemoData_errors (data : DemoData) :
  errors (validateDemoData host data) =
  ((if Js.length (userInput data) >? 1000
    then ["User input exceeds maximum length of 1000 characters"] else []) ++
   (if (counter data <? -1000) || (counter data >? 1000)
    then ["Counter value must be between -1000 and 1000"] else []) ++
   (if negb (Js.truthy (timestamp data)) || Js.isNaN (Date_parse host (timestamp data))
    then ["Invalid timestamp format"] else []))%list.
Proof.
  unfold validateDemoData.
  destruct (Js.length (userInput data) >? 1000);
    destruct ((counter data <? -1000) || (counter data >? 1000));
    destruct (negb (Js.truthy (timestamp data)) || Js.isNaN (Date_parse host (timestamp data)));
    reflexivity.
Qed.

Lemma timestamp_rule (ts : string) :
  negb (Js.truthy ts) || Js.isNaN (Date_parse host ts) = true <->
  ts = "" \/ Date_parse host ts = None.
Proof.
  rewrite orb_true_iff. destruct ts as [|c ts]; simpl.
  - split; auto.
  - destruct (Date_parse host (String c ts)); simpl; split; intros [H|H];
      try discriminate; auto.
Qed.

(** C3.  The validator depends on its argument alone and checks the three
    rules independently: each rule's message is listed exactly when that
    rule is broken, whatever the other two do; text longer than 1000, a
    counter outside [-1000, 1000] and a timestamp that does not parse each
    make the result invalid; and the result is valid exactly when the
    violation list is empty. *)
Theorem validateDemoData_rules (data : DemoData) :
  let r := validateDemoData host data in
  let too_long := 1000 < Js.length (userInput data) in
  let out_of_range := counter data < -1000 \/ 1000 < counter data in
  let unparseable := timestamp data = "" \/ Date_parse host (timestamp data) = None in
  (In "User input exceeds maximum length of 1000 characters" (errors r) <-> too_long) /\
  (In "Counter value must be between -1000 and 1000" (errors r) <-> out_of_range) /\
  (In "Invalid timestamp format" (errors r) <-> unparseable) /\
  (isValid r = true <-> errors r = []) /\
  (too_long -> isValid r = false) /\
  (out_of_range -> isValid r = false) /\
  (Date_parse host (timestamp data) = None -> isValid r = false).
Proof.
  cbv zeta.
  assert (Hv : isValid (validateDemoData host data) = true <->
               errors (validateDemoData host data) = []).
  { change (isValid (validateDemoData host data))
      with (List.length (errors (validateDemoData host data)) =? 0)%nat.
    destruct (errors (validateDemoData host data)); simpl; split;
      intro H; try reflexivity; discriminate H. }
  assert (Hin : forall m, In m (errors (validateDemoData host data)) ->
                          isValid (validateDemoData host data) = false).
  { intros m Hm. pose proof (proj1 Hv) as Hempty.
    destruct (isValid (validateDemoData host data)); [|reflexivity].
    rewrite (Hempty eq_refl) in Hm. destruct Hm. }
  assert (H1 : In "User input exceeds maximum length of 1000 characters"
                  (errors (validateDemoData host data)) <->
               1000 < Js.length (userInput data)).
  { rewrite validateDemoData_errors, !in_app_iff.
    destruct (Js.length (userInput data) >? 1000) eqn:E1;
      [apply Z.gtb_lt in E1 | rewrite Z.gtb_ltb in E1; apply Z.ltb_ge in E1];
      destruct ((counter data <? -1000) || (counter data >? 1000));
      destruct (negb (Js.truthy (timestamp data)) ||
                Js.isNaN (Date_parse host (timestamp data)));
      simpl; split; intros; auto; try lia;
        repeat match goal with H : _ \/ _ |- _ => destruct H end;
        try absurd_eq; try contradiction. }
  assert (H2 : In "Counter value must be between -1000 and 1000"
                  (errors (validateDemoData host data)) <->
               counter data < -1000 \/ 1000 < counter data).
  { rewrite validateDemoData_errors, !in_app_iff.
    destruct ((counter data <? -1000) || (counter data >? 1000)) eqn:E2;
      [ apply orb_true_iff in E2; rewrite Z.ltb_lt, Z.gtb_lt in E2
      | apply orb_false_iff in E2; rewrite Z.gtb_ltb, !Z.ltb_ge in E2 ];
      destruct (Js.length (userInput data) >? 1000);
      destruct (negb (Js.truthy (timestamp data)) ||
                Js.isNaN (Date_parse host (timestamp data)));
      simpl; split; intros; auto; try lia;
        repeat match goal with H : _ \/ _ |- _ => destruct H end;
        try absurd_eq; try contradiction; try lia. }
  assert (H3 : In "Invalid timestamp format"
                  (errors (validateDemoData host data)) <->
               timestamp data = "" \/ Date_parse host (timestamp data) = None).
  { rewrite validateDemoData_errors, !in_app_iff, <- timestamp_rule.
    destruct (negb (Js.truthy (timestamp data)) ||
              Js.isNaN (Date_parse host (timestamp data)));
      destruct (Js.length (userInput data) >? 1000);
      destruct ((counter data <? -1000) || (counter data >? 1000));
      simpl; split; intros; auto;
        repeat match goal with H : _ \/ _ |- _ => destruct H end;
        try absurd_eq; try contradiction. }
  split; [exact H1|]. split; [exact H2|]. split; [exact H3|]. split; [exact Hv|].
  split; [|split].
  - intro H. apply (Hin _ (proj2 H1 H)).
  - intro H. apply (Hin _ (proj2 H2 H)).
  - intro H. apply (Hin _ (proj2 H3 (or_intror H))).
Qed.

End Validator.

Lemma validateDemoData_rules_witness :
  isValid (validateDemoData Demo.host Scenario.all_wrong) = false /\
  In "User input exceeds maximum length of 1000 characters"
     (errors (validateDemoData Demo.host Scenario.all_wrong)) /\
  In "Counter value must be between -1000 and 1000"
     (errors (validateDemoData Demo.host Scenario.all_wrong)) /\
  In "Invalid timestamp format"
     (errors (validateDemoData Demo.host Scenario.all_wrong)).
Proof.
  destruct (validateDemoData_rules Demo.host Scenario.all_wrong)
    as (H1 & H2 & H3 & _ & Hlong & _).
  split; [apply Hlong; vm_compute; reflexivity|].
  split; [apply H1; vm_compute; reflexivity|].
  split; [apply H2; right; vm_compute; reflexivity|].
  apply H3; right; vm_compute; reflexivity.
Defined.

(* ------------------------------------------------------------------ *)
(** ** Save, restore, clear *)

(** Run the monad and the record updates, leaving the validator, the
    serialiser, the classifier and the service as they are. *)
Ltac crunch_in H :=
  cbv beta iota zeta delta
    [try_catch bind this_state setState Date_now when ret throw
     clearError addDebugLog handleError new_Error relog fst snd
     Js.truthy orb negb
     state pluginStateUnsubscribers autoSaveTimeout store clock timers next_timer
     service_calls save_invocations
     set_state set_pluginStateUnsubscribers set_autoSaveTimeout set_store set_clock
     set_timers set_service_calls set_save_invocations
     demoData isLoading error errorInfo isInitializing isStateConfigured lastSaveTime
     lastRestoreTime saveCount restoreCount debugLogs activeTab showErrorDetails
     set_demoData set_isLoading set_error set_errorInfo set_isInitializing
     set_isStateConfigured set_lastSaveTime set_lastRestoreTime set_saveCount
     set_restoreCount set_debugLogs set_activeTab set_showErrorDetails
     type message details err_timestamp operation stack] in H.

Ltac crunch :=
  cbv beta iota zeta delta
    [fst snd or_else
     state pluginStateUnsubscribers autoSaveTimeout store clock timers next_timer
     service_calls save_invocations
     demoData isLoading error errorInfo isInitializing isStateConfigured lastSaveTime
     lastRestoreTime saveCount restoreCount debugLogs activeTab showErrorDetails
     type message details err_timestamp operation stack
     userInput counter preferences timestamp autoSave showDebugInfo].

(** Open a world into its fields, so that every projection computes. *)
Ltac open_world_then w k :=
  let s := fresh "s" in
  let err := fresh "err" in
  let info := fresh "info" in
  destruct w as [s ? ? ? ? ? ? ? ?];
  destruct s as [? ? err info ? ? ? ? ? ? ? ? ?];
  k err info;
  cbn [state pluginStateUnsubscribers autoSaveTimeout store clock timers next_timer
       service_calls save_invocations
       demoData isLoading error errorInfo isInitializing isStateConfigured lastSaveTime
       lastRestoreTime saveCount restoreCount debugLogs activeTab showErrorDetails] in *.

Ltac open_world w := open_world_then w ltac:(fun _ _ => idtac).

(** The same, with the cases of the test that opens Save and Restore: is
    an error message or an error record on display? *)
Ltac open_world_cases w := open_world_then w ltac:(fun err info => destruct err; destruct info).

(** Replace the awaited call met in [H] by its closed form. *)
Ltac settle_in H host :=
  match type of H with
  | context [await host ?c ?m ?W] =>
      let logs := fresh "logs" in
      let E := fresh "E" in
      destruct (await_closed host c m W) as [logs E];
      rewrite E in H; clear E
  end.

Section Operations.

Context {Store : Type} (host : Host) (props : Props Store).

(** C4.  When [getState] resolves to a record, Restore adopts the
    record's [demoData] (the in-memory value if the record has none), sets
    the save counter to the record's (0 if missing), sets the restore
    counter to the record's (0 if missing) plus one, so a stored
    [restoreCount] of 3 gives 4, and sets the display restore timestamp to
    the current time. *)
Theorem restoreState_adopts_record
        (w : World Store) (svc : PluginStateService Store) (restored : SavedState) :
  services_pluginState props = Some svc ->
  outcome (svc_getState svc (store w)) = Normal (Some restored) ->
  let w' := snd (restoreState host props w) in
  demoData (state w') = or_else (saved_demoData restored) (demoData (state w)) /\
  saveCount (state w') = or_else (saved_saveCount restored) 0 /\
  restoreCount (state w') = or_else (saved_restoreCount restored) 0 + 1 /\
  lastRestoreTime (state w') = Some (toLocaleTimeString host (clock w')) /\
  clock w' = clock w + elapsed (svc_getState svc (store w)) /\
  (saved_restoreCount restored = Some 3 -> restoreCount (state w') = 4).
Proof.
  intros Hsvc Hout. cbv zeta. open_world_cases w;
  remember (snd (restoreState host props _)) as w' eqn:Ew';
  unfold restoreState in Ew'; rewrite Hsvc in Ew';
  crunch_in Ew'; settle_in Ew' host;
    crunch_in Ew'; rewrite Hout in Ew'; crunch_in Ew'; subst w'; crunch;
    (repeat split; try reflexivity; intros ->; reflexivity).
Qed.

(** C5.  When [getState] resolves to an absent value, Restore leaves the
    in-memory DemoData, both counters and both display timestamps as they
    were, raises nothing, shows no error, and its last log entry is
    'No saved state found'. *)
Theorem restoreState_nothing_saved (w : World Store) (svc : PluginStateService Store) :
  services_pluginState props = Some svc ->
  outcome (svc_getState svc (store w)) = Normal None ->
  let w' := snd (restoreState host props w) in
  fst (restoreState host props w) = Normal tt /\
  demoData (state w') = demoData (state w) /\
  saveCount (state w') = saveCount (state w) /\
  restoreCount (state w') = restoreCount (state w) /\
  lastSaveTime (state w') = lastSaveTime (state w) /\
  lastRestoreTime (state w') = lastRestoreTime (state w) /\
  error (state w') = "" /\
  errorInfo (state w') = None /\
  exists earlier,
    debugLogs (state w') =
    (earlier ++ [log_entry host (clock w') "No saved state found"])%list.
Proof.
  intros Hsvc Hout. cbv zeta. open_world_cases w;
  remember (restoreState host props _) as r eqn:Er;
  unfold restoreState in Er; rewrite Hsvc in Er;
  crunch_in Er; settle_in Er host;
    crunch_in Er; rewrite Hout in Er; crunch_in Er; subst r; crunch;
    (repeat split; try reflexivity; eexists; reflexivity).
Qed.

(** C6.  When [clearState] resolves, Clear resets DemoData to the
    default (empty text, counter 0, both preferences on, a fresh
    timestamp), both counters to 0 and both display timestamps to null,
    whatever the state was. *)
Theorem clearState_resets (w : World Store) (svc : PluginStateService Store) :
  services_pluginState props = Some svc ->
  outcome (svc_clearState svc (store w)) = Normal tt ->
  let w' := snd (clearState host props w) in
  userInput (demoData (state w')) = "" /\
  counter (demoData (state w')) = 0 /\
  autoSave (preferences (demoData (state w'))) = true /\
  showDebugInfo (preferences (demoData (state w'))) = true /\
  timestamp (demoData (state w')) = toISOString host (clock w') /\
  saveCount (state w') = 0 /\
  restoreCount (state w') = 0 /\
  lastSaveTime (state w') = None /\
  lastRestoreTime (state w') = None.
Proof.
  intros Hsvc Hout. cbv zeta. open_world w.
  remember (snd (clearState host props _)) as w' eqn:Ew'.
  unfold clearState in Ew'. rewrite Hsvc in Ew'. crunch_in Ew'.
  settle_in Ew' host. crunch_in Ew'. rewrite Hout in Ew'. crunch_in Ew'.
  subst w'. crunch. repeat split; reflexivity.
Qed.

(** C1, as the code has it.  Save with no service on the props makes no
    call on the service and persists nothing, and leaves an error record
    for the operation; but the record's category is unknown, not service:
    the message thrown reads 'service not available' where the classifier
    looks for 'Service not available'. *)
Theorem saveState_without_service (w : World Store) :
  services_pluginState props = None ->
  let w' := snd (saveState host props w) in
  service_calls w' = service_calls w /\
  store w' = store w /\
  exists info,
    errorInfo (state w') = Some info /\
    message info = "PluginState service not available for save operation" /\
    operation info = "saveState" /\
    type info = unknown.
Proof.
  intros Hsvc. cbv zeta. open_world_cases w;
  remember (snd (saveState host props _)) as w' eqn:Ew';
  unfold saveState in Ew'; rewrite Hsvc in Ew';
  crunch_in Ew'; subst w'; crunch;
    (repeat split; try reflexivity; eexists; repeat split; reflexivity).
Qed.

(** C2, as amended.  Save on an envelope longer than 10240 always fails
    before any call on the service: an error record for the operation is
    produced, and the persisted state, the save counter and the last-save
    time are as before.  When the service is present and the data passes
    the validator, the failure is the size check's, and its message
    carries the computed size. *)
Theorem oversize_save_fails_size_check_last (w : World Store) :
  let w' := snd (saveState host props w) in
  let size := envelope_size (state w) in
  10240 < size ->
  service_calls w' = service_calls w /\
  store w' = store w /\
  saveCount (state w') = saveCount (state w) /\
  lastSaveTime (state w') = lastSaveTime (state w) /\
  exists info,
    errorInfo (state w') = Some info /\
    operation info = "saveState" /\
    (forall svc,
        services_pluginState props = Some svc ->
        isValid (validateDemoData host (demoData (state w))) = true ->
        contains (message info) (Js.Number_toString size)).
Proof.
  cbv zeta. intro Hsize.
  apply Z.gtb_lt in Hsize. unfold envelope_size, envelope in *.
  destruct (services_pluginState props) as [svc|] eqn:Hsvc;
    destruct (isValid (validateDemoData host (demoData (state w)))) eqn:Hvalid;
    open_world_cases w;
    remember (snd (saveState host props _)) as w' eqn:Ew';
    unfold saveState in Ew'; rewrite Hsvc in Ew';
    crunch_in Ew';
    rewrite ?Hvalid in Ew'; crunch_in Ew';
    rewrite ?Hsize in Ew'; crunch_in Ew'; subst w'; crunch;
    (repeat split; try reflexivity; eexists;
     split; [reflexivity|]; split; [reflexivity|]);
    intros svc' Hsome Hok; try discriminate;
    exists "State size (", " bytes) exceeds maximum allowed size (10240 bytes)";
    reflexivity.
Qed.

End Operations.

(** C2 as stated fails when the validator rejects the data first: with
    10241 characters of input the envelope is far beyond the ceiling, and
    the message is the validator's, without the size. *)
Lemma oversize_save_counterexample :
  ~ oversize_save_fails Demo.host Demo.mockServices Scenario.long_input.
Proof.
  intro H. unfold oversize_save_fails in H. cbv zeta in H.
  assert (Hsize : 10240 < envelope_size (state Scenario.long_input))
    by (vm_compute; reflexivity).
  destruct (H Hsize) as (_ & _ & (info & Hinfo & Hmsg) & _).
  assert (Hwhat : errorInfo (state (snd (saveState Demo.host Demo.mockServices
                                            Scenario.long_input))) =
                  Some {| type := unknown;
                          message := "Validation failed: User input exceeds maximum length of 1000 characters";
                          details := "";
                          err_timestamp := "1970-01-01T00:00:00.000Z";
                          operation := "saveState";
                          stack := "Error: Validation failed: User input exceeds maximum length of 1000 characters" |})
    by (vm_compute; reflexivity).
  rewrite Hwhat in Hinfo. injection Hinfo as <-.
  apply includes_contains in Hmsg. vm_compute in Hmsg. discriminate Hmsg.
Qed.

Lemma oversize_save_fails_size_check_last_witness :
  10240 < envelope_size (state Scenario.long_remark) /\
  service_calls (snd (saveState Demo.host Demo.mockServices Scenario.long_remark)) = [] /\
  store (snd (saveState Demo.host Demo.mockServices Scenario.long_remark)) = Demo.emptyStore /\
  saveCount (state (snd (saveState Demo.host Demo.mockServices Scenario.long_remark))) = 0 /\
  exists info,
    errorInfo (state (snd (saveState Demo.host Demo.mockServices Scenario.long_remark)))
      = Some info /\
    contains (message info) "10457".
Proof.
  assert (Hsize : 10240 < envelope_size (state Scenario.long_remark))
    by (vm_compute; reflexivity).
  assert (Hvalid : isValid (validateDemoData Demo.host
                              (demoData (state Scenario.long_remark))) = true)
    by (vm_compute; reflexivity).
  assert (Hdigits : Js.Number_toString (envelope_size (state Scenario.long_remark)) = "10457")
    by (vm_compute; reflexivity).
  pose proof (oversize_save_fails_size_check_last Demo.host Demo.mockServices
                Scenario.long_remark Hsize) as (Hcalls & Hstore & Hcount & _ & info & Hinfo & _ & Hmsg).
  split; [exact Hsize|].
  split; [exact Hcalls|].
  split; [exact Hstore|].
  split; [exact Hcount|].
  exists info. split; [exact Hinfo|].
  rewrite <- Hdigits. exact (Hmsg Demo.mockService eq_refl Hvalid).
Defined.

Lemma saveState_without_service_witness :
  exists info,
    errorInfo (state (snd (saveState Demo.host Demo.noService Scenario.fresh))) = Some info /\
    type info = unknown /\
    service_calls (snd (saveState Demo.host Demo.noService Scenario.fresh)) = [].
Proof.
  destruct (saveState_without_service Demo.host Demo.noService Scenario.fresh eq_refl)
    as (Hcalls & _ & info & Hinfo & _ & _ & Hty).
  exists info. repeat split; assumption.
Defined.

Lemma restoreState_adopts_record_witness :
  let w := constructed Demo.host Scenario.restored_three_times 0 in
  restoreCount (state (snd (restoreState Demo.host Demo.mockServices w))) = 4 /\
  saveCount (state (snd (restoreState Demo.host Demo.mockServices w))) = 5 /\
  demoData (state (snd (restoreState Demo.host Demo.mockServices w))) = demoData (state w).
Proof.
  intro w.
  destruct (restoreState_adopts_record Demo.host Demo.mockServices w Demo.mockService
              {| saved_demoData := None; saved_saveCount := Some 5;
                 saved_restoreCount := Some 3 |} eq_refl eq_refl)
    as (Hdata & Hsaves & _ & _ & _ & Hfour).
  split; [exact (Hfour eq_refl)|]. split; [exact Hsaves | exact Hdata].
Defined.

Lemma restoreState_nothing_saved_witness :
  demoData (state (snd (restoreState Demo.host Demo.mockServices Scenario.fresh))) =
  demoData (state Scenario.fresh) /\
  errorInfo (state (snd (restoreState Demo.host Demo.mockServices Scenario.fresh))) = None.
Proof.
  destruct (restoreState_nothing_saved Demo.host Demo.mockServices Scenario.fresh
              Demo.mockService eq_refl eq_refl)
    as (_ & Hdata & _ & _ & _ & _ & _ & Hinfo & _).
  split; assumption.
Defined.

Lemma clearState_resets_witness :
  let w := snd (restoreState Demo.host Demo.mockServices
                  (constructed Demo.host Scenario.restored_three_times 0)) in
  saveCount (state w) = 5 /\
  saveCount (state (snd (clearState Demo.host Demo.mockServices w))) = 0 /\
  lastRestoreTime (state (snd (clearState Demo.host Demo.mockServices w))) = None.
Proof.
  intro w.
  destruct (clearState_resets Demo.host Demo.mockServices w Demo.mockService eq_refl eq_refl)
    as (_ & _ & _ & _ & _ & Hsaves & _ & _ & Hlast).
  split; [reflexivity|]. split; assumption.
Defined.

(* ------------------------------------------------------------------ *)
(** ** The bounded log *)

(** Side conditions of the invariant lemmas, for a predicate that reads
    none of the fields being set. *)
Ltac oblivious := intros; assumption.

Section BoundedLog.

Context {Store : Type} (host : Host) (props : Props Store).

Lemma log_bounded_state (w : World Store) (s' : PluginStateDemoState) :
  (List.length (debugLogs s') <= 20)%nat \/ debugLogs s' = debugLogs (state w) ->
  log_bounded w -> log_bounded (set_state s' w).
Proof.
  unfold log_bounded. simpl. intros [H|H] Hw; [exact H | rewrite H; exact Hw].
Qed.

Lemma addDebugLog_appends (message : string) (w : World Store) :
  debugLogs (state (snd (addDebugLog host message w))) =
  (Js.slice_last 19 (debugLogs (state w)) ++ [log_entry host (clock w) message])%list.
Proof. reflexivity. Qed.

Lemma log_bounded_reachable (w : World Store) :
  reachable host props w -> log_bounded w.
Proof.
  induction 1 as [st now | e w _ IH].
  - unfold log_bounded. simpl. lia.
  - apply (keeps_handle host props log_bounded); try oblivious.
    apply log_bounded_state.
Qed.

(** C7.  After any append the debug log holds at most 20 entries; an
    append to a log of 20 drops the oldest entry and puts the new one
    last, an append to a shorter log drops nothing; and the bound is kept
    by every method of the component that writes to the log, by every
    event, and so in every reachable world. *)
Theorem debug_log_never_exceeds_20 :
  (forall message (w : World Store), log_bounded (snd (addDebugLog host message w))) /\
  (forall message (w : World Store) oldest rest,
      debugLogs (state w) = oldest :: rest -> List.length rest = 19%nat ->
      debugLogs (state (snd (addDebugLog host message w))) =
      (rest ++ [log_entry host (clock w) message])%list) /\
  (forall message (w : World Store),
      (List.length (debugLogs (state w)) < 20)%nat ->
      debugLogs (state (snd (addDebugLog host message w))) =
      (debugLogs (state w) ++ [log_entry host (clock w) message])%list) /\
  (forall error op, preserves (Store := Store) log_bounded (handleError host error op)) /\
  preserves (Store := Store) log_bounded (clearError host) /\
  preserves log_bounded (configurePluginState host props) /\
  preserves (Store := Store) log_bounded (cleanupServices host) /\
  preserves log_bounded (saveState host props) /\
  preserves log_bounded (restoreState host props) /\
  preserves log_bounded (clearState host props) /\
  preserves log_bounded (autoSaveCallback host props) /\
  preserves log_bounded (componentDidMount host props) /\
  preserves (Store := Store) log_bounded (componentWillUnmount host) /\
  (forall e w, log_bounded w -> log_bounded (handle host props e w)) /\
  (forall w, reachable host props w -> log_bounded w).
Proof.
  split.
  { intros message w. unfold log_bounded. rewrite addDebugLog_appends.
    rewrite length_app, slice_last_length. cbn [List.length]. lia. }
  split.
  { intros message w oldest rest Hlogs Hlen.
    rewrite addDebugLog_appends, Hlogs, slice_last_drop_oldest by exact Hlen.
    reflexivity. }
  split.
  { intros message w Hlen.
    rewrite addDebugLog_appends, slice_last_all by lia. reflexivity. }
  split; [intros error op; apply keeps_handleError; first [apply log_bounded_state | oblivious]|].
  split; [apply keeps_clearError; first [apply log_bounded_state | oblivious]|].
  split; [apply keeps_configurePluginState; first [apply log_bounded_state | oblivious]|].
  split; [apply keeps_cleanupServices; first [apply log_bounded_state | oblivious]|].
  split; [apply keeps_saveState; first [apply log_bounded_state | oblivious]|].
  split; [apply keeps_restoreState; first [apply log_bounded_state | oblivious]|].
  split; [apply keeps_clearState; first [apply log_bounded_state | oblivious]|].
  split; [apply keeps_autoSaveCallback; first [apply log_bounded_state | oblivious]|].
  split; [apply keeps_componentDidMount; first [apply log_bounded_state | oblivious]|].
  split; [apply keeps_componentWillUnmount; first [apply log_bounded_state | oblivious]|].
  split; [|apply log_bounded_reachable].
  intros e w. apply keeps_handle; first [apply log_bounded_state | oblivious].
Qed.

End BoundedLog.

Lemma debug_log_never_exceeds_20_witness :
  List.length (debugLogs (state Scenario.full_log)) = 20%nat /\
  debugLogs (state (snd (addDebugLog Demo.host "one more" Scenario.full_log))) =
  (repeat "later" 19 ++ ["[00:00:00] one more"])%list.
Proof.
  destruct (debug_log_never_exceeds_20 Demo.host Demo.mockServices) as (_ & Hfull & _).
  split; [reflexivity|].
  exact (Hfull "one more" Scenario.full_log "oldest" (repeat "later" 19) eq_refl eq_refl).
Defined.

(* ------------------------------------------------------------------ *)
(** ** The debounced auto-save *)

Section Debounce.

Context {Store : Type} (host : Host) (props : Props Store).

(** Cancelling what [autoSaveTimeout] refers to leaves nothing pending. *)
Lemma owned_timer_cancelled (w : World Store) :
  timers_owned w ->
  match autoSaveTimeout w with
  | Some id => filter (fun p => negb (Nat.eqb (fst p) id)) (timers w)
  | None => timers w
  end = [].
Proof.
  intros [H | (id & due & H & Hid)]; rewrite H.
  - destruct (autoSaveTimeout w); reflexivity.
  - rewrite Hid. simpl. rewrite Nat.eqb_refl. reflexivity.
Qed.

(** Arming: whatever was pending is cancelled, one timer is set. *)
Lemma debouncedAutoSave_arms (w : World Store) :
  timers_owned w ->
  let w' := snd (debouncedAutoSave w) in
  timers w' = [(next_timer w, clock w + 1000)] /\
  autoSaveTimeout w' = Some (next_timer w) /\
  next_timer w' = S (next_timer w) /\
  clock w' = clock w /\
  state w' = state w /\
  save_invocations w' = save_invocations w.
Proof.
  intro H. pose proof (owned_timer_cancelled w H) as Hc. cbv zeta.
  unfold debouncedAutoSave, bind, setTimeout, clearTimeout.
  destruct (autoSaveTimeout w); simpl; rewrite ?Hc; repeat split; reflexivity.
Qed.

Lemma debouncedAutoSave_owned : preserves (Store := Store) timers_owned debouncedAutoSave.
Proof.
  intros w H. destruct (debouncedAutoSave_arms w H) as (Ht & Ha & _).
  right. exists (next_timer w), (clock w + 1000). split; assumption.
Qed.

Lemma updateDemoData_owned (updates : DemoDataUpdate) :
  preserves (Store := Store) timers_owned (updateDemoData host updates).
Proof.
  unfold updateDemoData.
  walk ltac:(first [ apply debouncedAutoSave_owned | intros ? ?; assumption ]).
Qed.

Lemma fire_owned (id : TimerId) (due : Z) (w : World Store) :
  timers_owned w -> timers_owned (fire host props id due w).
Proof.
  intro H. unfold fire, clearTimeout.
  apply (keeps_autoSaveCallback host props timers_owned); try oblivious.
  unfold timers_owned. cbn [timers autoSaveTimeout set_clock set_timers].
  destruct H as [H | (id' & due' & H & Hid)]; rewrite H; cbn [filter fst].
  - left; reflexivity.
  - destruct (Nat.eqb id' id); cbn [negb].
    + left; reflexivity.
    + right. exists id', due'. split; [reflexivity | exact Hid].
Qed.

Lemma run_timers_owned (fuel : nat) (t : Z) (w : World Store) :
  timers_owned w -> timers_owned (run_timers host props fuel t w).
Proof.
  revert w; induction fuel as [|fuel IH]; intros w H; simpl; [exact H|].
  destruct (next_due t (timers w)) as [[id due]|]; [|exact H].
  apply IH, fire_owned, H.
Qed.

Lemma componentWillUnmount_releases (w : World Store) :
  timers_owned w ->
  timers (snd (componentWillUnmount host w)) = [] /\
  autoSaveTimeout (snd (componentWillUnmount host w)) = None.
Proof.
  intro H. pose proof (owned_timer_cancelled w H) as Hc.
  set (I := fun w' : World Store => timers w' = [] /\ autoSaveTimeout w' = None).
  assert (K : preserves I (cleanupServices host))
    by (apply keeps_cleanupServices; intros; assumption).
  change (I (snd (componentWillUnmount host w))).
  unfold componentWillUnmount, bind, clearTimeout.
  destruct (autoSaveTimeout w) eqn:Ha; apply K; split; simpl; auto.
Qed.

Lemma handle_owned (e : Event) (w : World Store) :
  timers_owned w -> timers_owned (handle host props e w).
Proof.
  intro H. destruct e; cbn [handle].
  - apply keeps_componentDidMount; oblivious.
  - left. apply componentWillUnmount_releases, H.
  - apply keeps_saveState; oblivious.
  - apply keeps_restoreState; oblivious.
  - apply keeps_clearState; oblivious.
  - apply keeps_clearError; oblivious.
  - exact H.
  - apply updateDemoData_owned, H.
  - unfold incrementCounter, bind, this_state. apply updateDemoData_owned, H.
  - unfold decrementCounter, bind, this_state. apply updateDemoData_owned, H.
  - unfold handlePreferenceChange, bind, this_state. apply updateDemoData_owned, H.
  - exact H.
  - exact H.
  - unfold advance_to. apply run_timers_owned, H.
Qed.

Lemma reachable_owned (w : World Store) :
  reachable host props w -> timers_owned w.
Proof.
  induction 1 as [st now | e w _ IH].
  - left; reflexivity.
  - apply handle_owned, IH.
Qed.

(** A mutation that leaves auto-save on arms the scheduler. *)
Lemma updateDemoData_arms (updates : DemoDataUpdate) (w : World Store) :
  timers_owned w ->
  autoSave_after updates w = true ->
  let w' := snd (updateDemoData host updates w) in
  timers w' = [(next_timer w, clock w + 1000)] /\
  autoSaveTimeout w' = Some (next_timer w) /\
  next_timer w' = S (next_timer w) /\
  clock w' = clock w /\
  save_invocations w' = save_invocations w.
Proof.
  intros H Hon. cbv zeta.
  unfold updateDemoData, bind, Date_now, setState, this_state.
  cbn [fst snd state set_state demoData set_demoData preferences].
  unfold autoSave_after, or_else in Hon. rewrite Hon. unfold when.
  match goal with
  | |- context [debouncedAutoSave ?W] =>
      destruct (debouncedAutoSave_arms W H) as (Ht & Ha & Hn & Hc & _ & Hs)
  end.
  auto.
Qed.

(** Entering Save records the instant; nothing else does. *)
Lemma saveState_records_entry (w : World Store) :
  save_invocations (snd (saveState host props w)) = (save_invocations w ++ [clock w])%list.
Proof.
  apply (keeps_saveState_entered host props
           (fun w' => save_invocations w' = (save_invocations w ++ [clock w])%list));
    try oblivious.
  reflexivity.
Qed.

Lemma autoSaveCallback_records_entry (w : World Store) :
  save_invocations (snd (autoSaveCallback host props w)) =
  (save_invocations w ++ [clock w])%list.
Proof.
  unfold autoSaveCallback, bind. rewrite addDebugLog_relog.
  rewrite saveState_records_entry. reflexivity.
Qed.

Lemma autoSaveCallback_keeps_timers (w : World Store) :
  timers (snd (autoSaveCallback host props w)) = timers w.
Proof.
  apply (keeps_autoSaveCallback host props (fun w' => timers w' = timers w));
    try oblivious.
  reflexivity.
Qed.

(** Nothing due: only the clock moves. *)
Lemma advance_to_quiet (t : Z) (w : World Store) :
  next_due t (timers w) = None ->
  advance_to host props t w = set_clock (Z.max (clock w) t) w.
Proof.
  intro H. unfold advance_to.
  destruct (List.length (timers w)); simpl; rewrite ?H; reflexivity.
Qed.

(** One timer pending and due: it fires once, at its due time or at the
    current instant if that is later. *)
Lemma advance_to_fires (t : Z) (w : World Store) (id : TimerId) (due : Z) :
  timers w = [(id, due)] ->
  due <= t ->
  save_invocations (advance_to host props t w) =
  (save_invocations w ++ [Z.max (clock w) due])%list /\
  timers (advance_to host props t w) = [].
Proof.
  intros Ht Hdue. unfold advance_to. rewrite Ht.
  cbn [List.length run_timers]. rewrite Ht. cbn [next_due].
  apply Z.leb_le in Hdue. rewrite Hdue.
  unfold fire, clearTimeout. rewrite Ht. cbn [filter fst]. rewrite Nat.eqb_refl.
  cbn [negb set_clock save_invocations timers].
  rewrite autoSaveCallback_records_entry, autoSaveCallback_keeps_timers.
  split; reflexivity.
Qed.

(** C8.  Arming the scheduler cancels what is pending and leaves exactly
    one timer, due 1000 after the current instant.  Two mutations that
    leave auto-save on, the second less than 1000 after the first, give
    exactly one Save call, 1000 after the second mutation and none
    before; for mutations at 0 and 500 that is one call at 1500.  And
    unmounting leaves no timer pending. *)
Theorem debounce_last_write_wins :
  (forall w : World Store,
      reachable host props w -> timers_owned w) /\
  (forall w : World Store,
      timers_owned w ->
      timers (snd (debouncedAutoSave w)) = [(next_timer w, clock w + 1000)] /\
      autoSaveTimeout (snd (debouncedAutoSave w)) = Some (next_timer w)) /\
  (forall (w : World Store) (u1 u2 : DemoDataUpdate) (t2 T : Z),
      timers_owned w ->
      clock w <= t2 < clock w + 1000 ->
      autoSave_after u1 w = true ->
      autoSave_after u2 (snd (updateDemoData host u1 w)) = true ->
      let w1 := snd (updateDemoData host u1 w) in
      let w2 := snd (updateDemoData host u2 (advance_to host props t2 w1)) in
      (T < t2 + 1000 ->
       save_invocations (advance_to host props T w2) = save_invocations w) /\
      (t2 + 1000 <= T ->
       save_invocations (advance_to host props T w2) =
       (save_invocations w ++ [t2 + 1000])%list) /\
      (clock w = 0 -> t2 = 500 -> 1500 <= T ->
       save_invocations (advance_to host props T w2) =
       (save_invocations w ++ [1500])%list)) /\
  (forall w : World Store,
      timers_owned w ->
      timers (snd (componentWillUnmount host w)) = [] /\
      autoSaveTimeout (snd (componentWillUnmount host w)) = None).
Proof.
  split; [exact reachable_owned|].
  split; [intros w H; destruct (debouncedAutoSave_arms w H) as (? & ? & _); auto|].
  split; [|exact componentWillUnmount_releases].
  intros w u1 u2 t2 T Hown Ht2 Hon1 Hon2 w1 w2.
  destruct (updateDemoData_arms u1 w Hown Hon1) as (Ht & Ha & Hn & Hc & Hs).
  fold w1 in Ht, Ha, Hn, Hc, Hs, Hon2.
  assert (Hquiet : advance_to host props t2 w1 = set_clock (Z.max (clock w1) t2) w1).
  { apply advance_to_quiet. rewrite Ht. cbn [next_due].
    destruct (Z.leb_spec (clock w + 1000) t2); [lia | reflexivity]. }
  assert (Hown1 : timers_owned (advance_to host props t2 w1)).
  { rewrite Hquiet. right. exists (next_timer w), (clock w + 1000). auto. }
  assert (Hon2' : autoSave_after u2 (advance_to host props t2 w1) = true).
  { rewrite Hquiet. exact Hon2. }
  destruct (updateDemoData_arms u2 _ Hown1 Hon2') as (Ht' & Ha' & Hn' & Hc' & Hs').
  fold w2 in Ht', Ha', Hn', Hc', Hs'.
  rewrite Hquiet in Ht', Hc', Hs'. cbn [clock set_clock save_invocations] in Ht', Hc', Hs'.
  rewrite Hc in Ht', Hc'. rewrite Z.max_r in Ht', Hc' by lia. rewrite Hs in Hs'.
  assert (Hlate : forall T', t2 + 1000 <= T' ->
            save_invocations (advance_to host props T' w2) =
            (save_invocations w ++ [t2 + 1000])%list).
  { intros T' HT'. destruct (advance_to_fires T' w2 _ _ Ht' HT') as [-> _].
    rewrite Hs', Hc', Z.max_r by lia. reflexivity. }
  split; [|split].
  - intro HT. rewrite advance_to_quiet.
    + exact Hs'.
    + rewrite Ht'. cbn [next_due].
      destruct (Z.leb_spec (t2 + 1000) T); [lia | reflexivity].
  - apply Hlate.
  - intros _ -> HT. apply (Hlate T). lia.
Qed.

End Debounce.

Lemma debounce_last_write_wins_witness :
  let w1 := snd (updateDemoData Demo.host (Scenario.text_update "a") Scenario.fresh) in
  let w2 := snd (updateDemoData Demo.host (Scenario.text_update "ab")
                   (advance_to Demo.host Demo.mockServices 500 w1)) in
  save_invocations (advance_to Demo.host Demo.mockServices 1499 w2) = [] /\
  save_invocations (advance_to Demo.host Demo.mockServices 2000 w2) = [1500].
Proof.
  intros w1 w2.
  destruct (debounce_last_write_wins Demo.host Demo.mockServices) as (_ & _ & Hscn & _).
  assert (Hown : timers_owned Scenario.fresh) by (left; reflexivity).
  assert (Hwin : clock Scenario.fresh <= 500 < clock Scenario.fresh + 1000)
    by (simpl; lia).
  split.
  - destruct (Hscn Scenario.fresh (Scenario.text_update "a") (Scenario.text_update "ab")
                   500 1499 Hown Hwin eq_refl eq_refl) as (Hearly & _).
    apply Hearly. lia.
  - destruct (Hscn Scenario.fresh (Scenario.text_update "a") (Scenario.text_update "ab")
                   500 2000 Hown Hwin eq_refl eq_refl) as (_ & _ & Hat).
    apply Hat; [reflexivity | reflexivity | lia].
Defined.

(* ------------------------------------------------------------------ *)
(** ** Save: the remaining paths *)

Section SavePaths.

Context {Store : Type} (host : Host) (props : Props Store).

(** The message of a validation failure matches none of the classifier's
    patterns: they are lower-case, the messages are capitalised. *)
Lemma validation_failure_unclassified (data : DemoData) :
  categorize ("Validation failed: " ++ Js.join ", " (errors (validateDemoData host data)))
  = unknown.
Proof.
  rewrite validateDemoData_errors.
  destruct (Js.length (userInput data) >? 1000);
    destruct ((counter data <? -1000) || (counter data >? 1000));
    destruct (negb (Js.truthy (timestamp data)) ||
              Js.isNaN (Date_parse host (timestamp data)));
    vm_compute; reflexivity.
Qed.

(** The path of Save on which everything goes well. *)
Lemma saveState_resolved (w : World Store) (svc : PluginStateService Store) :
  services_pluginState props = Some svc ->
  isValid (validateDemoData host (demoData (state w))) = true ->
  envelope_size (state w) <= 10240 ->
  outcome (svc_saveState svc (envelope (state w)) (store w)) = Normal tt ->
  let settled := svc_saveState svc (envelope (state w)) (store w) in
  let w' := snd (saveState host props w) in
  fst (saveState host props w) = Normal tt /\
  service_calls w' = (service_calls w ++ [CallSaveState (envelope (state w))])%list /\
  store w' = store_after settled /\
  saveCount (state w') = saveCount (state w) + 1 /\
  lastSaveTime (state w') = Some (toLocaleTimeString host (clock w + elapsed settled)) /\
  isLoading (state w') = false /\
  error (state w') = "" /\
  errorInfo (state w') = None /\
  demoData (state w') = demoData (state w) /\
  restoreCount (state w') = restoreCount (state w) /\
  exists earlier,
    debugLogs (state w') =
    (earlier ++ [log_entry host (clock w') "State saved successfully"])%list.
Proof.
  intros Hsvc Hvalid Hsize Hout. cbv zeta.
  assert (Hfits : (envelope_size (state w) >? 10240) = false)
    by (rewrite Z.gtb_ltb; apply Z.ltb_ge; exact Hsize).
  clear Hsize. unfold envelope_size, envelope in *.
  open_world_cases w;
    remember (saveState host props _) as r eqn:Er;
    unfold saveState in Er; rewrite Hsvc in Er;
    crunch_in Er; rewrite Hvalid in Er; crunch_in Er;
    rewrite Hfits in Er; crunch_in Er;
    settle_in Er host; crunch_in Er; rewrite Hout in Er; crunch_in Er;
    subst r; crunch;
    (repeat split; try reflexivity; eexists; reflexivity).
Qed.

(** X1.  When the service is there, the data is valid, the envelope fits and
    the service resolves, Save makes exactly one call, with the envelope
    carrying the counter plus one, then adopts that counter, stamps the
    save time, and leaves no error and no busy flag. *)
Theorem saveState_succeeds (w : World Store) (svc : PluginStateService Store) :
  services_pluginState props = Some svc ->
  isValid (validateDemoData host (demoData (state w))) = true ->
  envelope_size (state w) <= 10240 ->
  outcome (svc_saveState svc (envelope (state w)) (store w)) = Normal tt ->
  let settled := svc_saveState svc (envelope (state w)) (store w) in
  let w' := snd (saveState host props w) in
  fst (saveState host props w) = Normal tt /\
  service_calls w' = (service_calls w ++ [CallSaveState (envelope (state w))])%list /\
  store w' = store_after settled /\
  saveCount (state w') = saveCount (state w) + 1 /\
  lastSaveTime (state w') = Some (toLocaleTimeString host (clock w + elapsed settled)) /\
  isLoading (state w') = false /\
  error (state w') = "" /\
  errorInfo (state w') = None /\
  demoData (state w') = demoData (state w) /\
  restoreCount (state w') = restoreCount (state w) /\
  exists earlier,
    debugLogs (state w') =
    (earlier ++ [log_entry host (clock w') "State saved successfully"])%list.
Proof.
  intros Hsvc Hvalid Hsize Hout. cbv zeta.
  destruct (saveState_resolved w svc Hsvc Hvalid Hsize Hout) as (H1 & H2 & H3 & H4 & H5 & H6 & H7 & H8 & H9 & H10 & H11).
  split; [exact H1|].
  split; [exact H2|].
  split; [exact H3|].
  split; [exact H4|].
  split; [exact H5|].
  split; [exact H6|].
  split; [exact H7|].
  split; [exact H8|].
  split; [exact H9|].
  split; [exact H10 | exact H11].
Qed.

(** X2.  When the service rejects the call, Save has made its one call, keeps
    the counter and the save time as they were, and hands the failure to
    the classifier under the name saveState. *)
Theorem saveState_rejected (w : World Store) (svc : PluginStateService Store) (e : JsValue) :
  services_pluginState props = Some svc ->
  isValid (validateDemoData host (demoData (state w))) = true ->
  envelope_size (state w) <= 10240 ->
  outcome (svc_saveState svc (envelope (state w)) (store w)) = Throw e ->
  let settled := svc_saveState svc (envelope (state w)) (store w) in
  let w' := snd (saveState host props w) in
  fst (saveState host props w) = Normal tt /\
  service_calls w' = (service_calls w ++ [CallSaveState (envelope (state w))])%list /\
  store w' = store_after settled /\
  saveCount (state w') = saveCount (state w) /\
  lastSaveTime (state w') = lastSaveTime (state w) /\
  demoData (state w') = demoData (state w) /\
  isLoading (state w') = false /\
  exists info,
    errorInfo (state w') = Some info /\
    error (state w') = message info /\
    operation info = "saveState" /\
    type info = category_of e /\
    err_timestamp info = toISOString host (clock w + elapsed settled).
Proof.
  intros Hsvc Hvalid Hsize Hout. cbv zeta.
  assert (Hfits : (envelope_size (state w) >? 10240) = false)
    by (rewrite Z.gtb_ltb; apply Z.ltb_ge; exact Hsize).
  clear Hsize. unfold envelope_size, envelope in *.
  destruct e;
  open_world_cases w;
    remember (saveState host props _) as r eqn:Er;
    unfold saveState in Er; rewrite Hsvc in Er;
    crunch_in Er; rewrite Hvalid in Er; crunch_in Er;
    rewrite Hfits in Er; crunch_in Er;
    settle_in Er host; crunch_in Er; rewrite Hout in Er; crunch_in Er;
    subst r; crunch;
    (repeat split; try reflexivity; eexists; repeat split; reflexivity).
Qed.

(** X3.  When the validator rejects the data, Save makes no call and changes
    neither data nor counters; the message is 'Validation failed: ' and the
    violations joined by commas, and the record's category is unknown (the
    classifier's patterns are lower-case, the messages are not). *)
Theorem saveState_invalid_data (w : World Store) (svc : PluginStateService Store) :
  services_pluginState props = Some svc ->
  isValid (validateDemoData host (demoData (state w))) = false ->
  let w' := snd (saveState host props w) in
  service_calls w' = service_calls w /\
  store w' = store w /\
  demoData (state w') = demoData (state w) /\
  saveCount (state w') = saveCount (state w) /\
  lastSaveTime (state w') = lastSaveTime (state w) /\
  isLoading (state w') = false /\
  exists info,
    errorInfo (state w') = Some info /\
    operation info = "saveState" /\
    message info =
      "Validation failed: " ++
      Js.join ", " (errors (validateDemoData host (demoData (state w)))) /\
    type info = unknown.
Proof.
  intros Hsvc Hvalid. cbv zeta.
  pose proof (validation_failure_unclassified (demoData (state w))) as Hcat.
  open_world_cases w;
    remember (snd (saveState host props _)) as w' eqn:Ew';
    unfold saveState in Ew'; rewrite Hsvc in Ew';
    crunch_in Ew'; rewrite Hvalid in Ew'; crunch_in Ew';
    rewrite Hcat in Ew';
    subst w'; crunch;
    (repeat split; try reflexivity; eexists; repeat split; reflexivity).
Qed.

(** Every path of Save at once. *)
Lemma saveState_total (w : World Store) :
  let w' := snd (saveState host props w) in
  fst (saveState host props w) = Normal tt /\
  isLoading (state w') = false /\
  error_consistent (state w') /\
  demoData (state w') = demoData (state w) /\
  restoreCount (state w') = restoreCount (state w) /\
  lastRestoreTime (state w') = lastRestoreTime (state w) /\
  timers w' = timers w /\
  autoSaveTimeout w' = autoSaveTimeout w /\
  (service_calls w' = service_calls w \/
   service_calls w' = (service_calls w ++ [CallSaveState (envelope (state w))])%list) /\
  (saveCount (state w') = saveCount (state w) \/
   saveCount (state w') = saveCount (state w) + 1).
Proof.
  cbv zeta. unfold error_consistent, envelope.
  destruct (services_pluginState props) as [svc|] eqn:Hsvc;
    destruct (isValid (validateDemoData host (demoData (state w)))) eqn:Hvalid;
    destruct (Js.length (JSON_stringify
                {| saved_demoData := Some (demoData (state w));
                   saved_saveCount := Some (saveCount (state w) + 1);
                   saved_restoreCount := Some (restoreCount (state w)) |}) >? 10240)
      eqn:Hsize;
    try (destruct (outcome (svc_saveState svc
                {| saved_demoData := Some (demoData (state w));
                   saved_saveCount := Some (saveCount (state w) + 1);
                   saved_restoreCount := Some (restoreCount (state w)) |} (store w)))
           as [[]|[]] eqn:Hout);
    open_world_cases w;
    remember (saveState host props _) as r eqn:Er;
    unfold saveState in Er; rewrite Hsvc in Er;
    crunch_in Er; rewrite ?Hvalid in Er; crunch_in Er;
    rewrite ?Hsize in Er; crunch_in Er;
    try (settle_in Er host; crunch_in Er; rewrite Hout in Er; crunch_in Er);
    subst r; crunch;
    (repeat split; try reflexivity; first [left; reflexivity | right; reflexivity]).
Qed.


End SavePaths.

(* ------------------------------------------------------------------ *)
(** ** Restore and clear: the remaining paths *)

Section RestoreClearPaths.

Context {Store : Type} (host : Host) (props : Props Store).

(** X5.  Restore and Clear with no service on the props make no call, change
    no data, counter or timestamp, and leave an error record under their
    own name whose category is unknown (as for Save, the message reads
    'service not available' in lower case). *)
Theorem restore_clear_without_service (w : World Store) :
  services_pluginState props = None ->
  (let w' := snd (restoreState host props w) in
   service_calls w' = service_calls w /\
   demoData (state w') = demoData (state w) /\
   saveCount (state w') = saveCount (state w) /\
   restoreCount (state w') = restoreCount (state w) /\
   lastRestoreTime (state w') = lastRestoreTime (state w) /\
   exists info,
     errorInfo (state w') = Some info /\
     message info = "PluginState service not available for restore operation" /\
     operation info = "restoreState" /\
     type info = unknown) /\
  (let w' := snd (clearState host props w) in
   service_calls w' = service_calls w /\
   demoData (state w') = demoData (state w) /\
   saveCount (state w') = saveCount (state w) /\
   restoreCount (state w') = restoreCount (state w) /\
   lastSaveTime (state w') = lastSaveTime (state w) /\
   lastRestoreTime (state w') = lastRestoreTime (state w) /\
   exists info,
     errorInfo (state w') = Some info /\
     message info = "PluginState service not available for clear operation" /\
     operation info = "clearState" /\
     type info = unknown).
Proof.
  intros Hsvc. cbv zeta. split.
  - open_world_cases w;
      remember (snd (restoreState host props _)) as w' eqn:Ew';
      unfold restoreState in Ew'; rewrite Hsvc in Ew';
      crunch_in Ew'; subst w'; crunch;
      (repeat split; try reflexivity; eexists; repeat split; reflexivity).
  - open_world w.
    remember (snd (clearState host props _)) as w' eqn:Ew'.
    unfold clearState in Ew'. rewrite Hsvc in Ew'.
    crunch_in Ew'. subst w'. crunch.
    repeat split; try reflexivity. eexists. repeat split; reflexivity.
Qed.

(** X6.  When [getState] rejects, Restore adopts nothing: data, counters and
    both timestamps are as before, the restore counter is not incremented,
    and the failure is classified under the name restoreState. *)
Theorem restoreState_rejected (w : World Store) (svc : PluginStateService Store) (e : JsValue) :
  services_pluginState props = Some svc ->
  outcome (svc_getState svc (store w)) = Throw e ->
  let w' := snd (restoreState host props w) in
  fst (restoreState host props w) = Normal tt /\
  service_calls w' = (service_calls w ++ [CallGetState])%list /\
  demoData (state w') = demoData (state w) /\
  saveCount (state w') = saveCount (state w) /\
  restoreCount (state w') = restoreCount (state w) /\
  lastSaveTime (state w') = lastSaveTime (state w) /\
  lastRestoreTime (state w') = lastRestoreTime (state w) /\
  isLoading (state w') = false /\
  exists info,
    errorInfo (state w') = Some info /\
    error (state w') = message info /\
    operation info = "restoreState" /\
    type info = category_of e.
Proof.
  intros Hsvc Hout. cbv zeta.
  destruct e;
  open_world_cases w;
    remember (restoreState host props _) as r eqn:Er;
    unfold restoreState in Er; rewrite Hsvc in Er;
    crunch_in Er; settle_in Er host; crunch_in Er; rewrite Hout in Er; crunch_in Er;
    subst r; crunch;
    (repeat split; try reflexivity; eexists; repeat split; reflexivity).
Qed.

(** X7.  When [clearState] rejects, Clear resets nothing: data, counters and
    both timestamps are as before, and the failure is classified under the
    name clearState. *)
Theorem clearState_rejected (w : World Store) (svc : PluginStateService Store) (e : JsValue) :
  services_pluginState props = Some svc ->
  outcome (svc_clearState svc (store w)) = Throw e ->
  let w' := snd (clearState host props w) in
  fst (clearState host props w) = Normal tt /\
  service_calls w' = (service_calls w ++ [CallClearState])%list /\
  demoData (state w') = demoData (state w) /\
  saveCount (state w') = saveCount (state w) /\
  restoreCount (state w') = restoreCount (state w) /\
  lastSaveTime (state w') = lastSaveTime (state w) /\
  lastRestoreTime (state w') = lastRestoreTime (state w) /\
  isLoading (state w') = false /\
  exists info,
    errorInfo (state w') = Some info /\
    error (state w') = message info /\
    operation info = "clearState" /\
    type info = category_of e.
Proof.
  intros Hsvc Hout. cbv zeta.
  destruct e;
  open_world w;
    remember (clearState host props _) as r eqn:Er;
    unfold clearState in Er; rewrite Hsvc in Er;
    crunch_in Er; settle_in Er host; crunch_in Er; rewrite Hout in Er; crunch_in Er;
    subst r; crunch;
    (repeat split; try reflexivity; eexists; repeat split; reflexivity).
Qed.

(** Every path of the operation at once. *)
Lemma restoreState_total (w : World Store) :
  let w' := snd (restoreState host props w) in
  fst (restoreState host props w) = Normal tt /\
  isLoading (state w') = false /\
  error_consistent (state w') /\
  lastSaveTime (state w') = lastSaveTime (state w) /\
  timers w' = timers w /\
  autoSaveTimeout w' = autoSaveTimeout w /\
  save_invocations w' = save_invocations w /\
  (service_calls w' = service_calls w \/
   service_calls w' = (service_calls w ++ [CallGetState])%list).
Proof.
  cbv zeta. unfold error_consistent.
  destruct (services_pluginState props) as [svc|] eqn:Hsvc;
    try (destruct (outcome (svc_getState svc (store w))) as [[restored|]|[]] eqn:Hout);
    open_world_cases w;
    remember (restoreState host props _) as r eqn:Er;
    unfold restoreState in Er; rewrite Hsvc in Er; crunch_in Er;
    try (settle_in Er host; crunch_in Er; rewrite Hout in Er; crunch_in Er);
    subst r; crunch;
    (repeat split; try reflexivity; first [left; reflexivity | right; reflexivity]).
Qed.


(** Every path of the operation at once. *)
Lemma clearState_total (w : World Store) :
  let w' := snd (clearState host props w) in
  fst (clearState host props w) = Normal tt /\
  isLoading (state w') = false /\
  showErrorDetails (state w') = false /\
  error_consistent (state w') /\
  timers w' = timers w /\
  autoSaveTimeout w' = autoSaveTimeout w /\
  save_invocations w' = save_invocations w /\
  (service_calls w' = service_calls w \/
   service_calls w' = (service_calls w ++ [CallClearState])%list).
Proof.
  cbv zeta. unfold error_consistent.
  destruct (services_pluginState props) as [svc|] eqn:Hsvc;
    try (destruct (outcome (svc_clearState svc (store w))) as [[]|[]] eqn:Hout);
    open_world w;
    remember (clearState host props _) as r eqn:Er;
    unfold clearState in Er; rewrite Hsvc in Er; crunch_in Er;
    try (settle_in Er host; crunch_in Er; rewrite Hout in Er; crunch_in Er);
    subst r; crunch;
    (repeat split; try reflexivity; first [left; reflexivity | right; reflexivity]).
Qed.


(** The paths of Restore on which [getState] resolves. *)
Lemma restoreState_resolved (w : World Store) (svc : PluginStateService Store)
      (found : option SavedState) :
  services_pluginState props = Some svc ->
  outcome (svc_getState svc (store w)) = Normal found ->
  let settled := svc_getState svc (store w) in
  let w' := snd (restoreState host props w) in
  match found with
  | Some restored =>
      demoData (state w') = or_else (saved_demoData restored) (demoData (state w)) /\
      saveCount (state w') = or_else (saved_saveCount restored) 0 /\
      restoreCount (state w') = or_else (saved_restoreCount restored) 0 + 1 /\
      lastRestoreTime (state w') = Some (toLocaleTimeString host (clock w + elapsed settled))
  | None =>
      demoData (state w') = demoData (state w) /\
      saveCount (state w') = saveCount (state w) /\
      restoreCount (state w') = restoreCount (state w) /\
      lastRestoreTime (state w') = lastRestoreTime (state w)
  end /\
  error (state w') = "" /\
  errorInfo (state w') = None /\
  lastSaveTime (state w') = lastSaveTime (state w) /\
  store w' = store_after settled /\
  clock w' = clock w + elapsed settled /\
  service_calls w' = (service_calls w ++ [CallGetState])%list.
Proof.
  intros Hsvc Hout. cbv zeta.
  destruct found as [restored|];
  open_world_cases w;
    remember (snd (restoreState host props _)) as w' eqn:Ew';
    unfold restoreState in Ew'; rewrite Hsvc in Ew';
    crunch_in Ew'; settle_in Ew' host; crunch_in Ew'; rewrite Hout in Ew'; crunch_in Ew';
    subst w'; crunch; repeat split; reflexivity.
Qed.

(** The path of Clear on which [clearState] resolves. *)
Lemma clearState_resolved (w : World Store) (svc : PluginStateService Store) :
  services_pluginState props = Some svc ->
  outcome (svc_clearState svc (store w)) = Normal tt ->
  let settled := svc_clearState svc (store w) in
  let w' := snd (clearState host props w) in
  demoData (state w') = default_demoData host (clock w + elapsed settled) /\
  saveCount (state w') = 0 /\
  restoreCount (state w') = 0 /\
  lastSaveTime (state w') = None /\
  lastRestoreTime (state w') = None /\
  error (state w') = "" /\
  errorInfo (state w') = None /\
  store w' = store_after settled /\
  clock w' = clock w + elapsed settled /\
  service_calls w' = (service_calls w ++ [CallClearState])%list.
Proof.
  intros Hsvc Hout. cbv zeta.
  open_world w.
  remember (snd (clearState host props _)) as w' eqn:Ew'.
  unfold clearState in Ew'. rewrite Hsvc in Ew'.
  crunch_in Ew'. settle_in Ew' host. crunch_in Ew'. rewrite Hout in Ew'. crunch_in Ew'.
  subst w'. crunch. repeat split; reflexivity.
Qed.

End RestoreClearPaths.

(* ------------------------------------------------------------------ *)
(** ** Configuration, lifecycle hooks, mounting *)

(** As [crunch_in], with the synchronous service calls and the host's
    conversions run too. *)
Ltac crunch_sync_in H :=
  cbv beta iota zeta delta [call_sync String_of plugin_config] in H;
  crunch_in H.

(** Case on the next synchronous service call met in [H]. *)
Ltac split_call_in H :=
  match type of H with
  | context [svc_configure ?s ?c ?st] =>
      let E := fresh "Hconfigure" in
      destruct (svc_configure s c st) as [[[]|?] ?] eqn:E; rewrite ?E in H
  | context [svc_onSave ?s ?st] =>
      let E := fresh "HonSave" in
      destruct (svc_onSave s st) as [[?|?] ?] eqn:E; rewrite ?E in H
  | context [svc_onRestore ?s ?st] =>
      let E := fresh "HonRestore" in
      destruct (svc_onRestore s st) as [[?|?] ?] eqn:E; rewrite ?E in H
  | context [svc_onClear ?s ?st] =>
      let E := fresh "HonClear" in
      destruct (svc_onClear s st) as [[?|?] ?] eqn:E; rewrite ?E in H
  end.

Section Lifecycle.

Context {Store : Type} (host : Host) (props : Props Store).

(** Every path of [configurePluginState] at once. *)
Lemma configurePluginState_total (w : World Store) :
  let r := configurePluginState host props w in
  same_but_log_and_configured (state w) (state (snd r)) /\
  timers (snd r) = timers w /\
  autoSaveTimeout (snd r) = autoSaveTimeout w /\
  save_invocations (snd r) = save_invocations w /\
  service_calls (snd r) = service_calls w /\
  clock (snd r) = clock w /\
  (fst r = Normal tt -> isStateConfigured (state (snd r)) = true) /\
  (forall e, fst r = Throw e ->
     isStateConfigured (state (snd r)) = isStateConfigured (state w) /\
     pluginStateUnsubscribers (snd r) = pluginStateUnsubscribers w).
Proof.
  cbv zeta. unfold same_but_log_and_configured.
  destruct (services props) as [svcs|] eqn:Hprops;
    [destruct (pluginState svcs) as [svc|] eqn:Hsvc|];
    open_world w;
    remember (configurePluginState host props _) as r eqn:Er;
    unfold configurePluginState in Er; rewrite Hprops in Er; rewrite ?Hsvc in Er;
    crunch_sync_in Er;
    repeat (split_call_in Er; crunch_sync_in Er);
    subst r; crunch;
    (split; [do 2 eexists; reflexivity|]);
    repeat split; try reflexivity; try discriminate; intros; discriminate.
Qed.

(** X10.  With no service on the props, configuration throws after logging the
    failure, and configures nothing: the flag, the unsubscribe handles and
    the store are as they were. *)
Theorem configurePluginState_without_service (w : World Store) :
  services_pluginState props = None ->
  let r := configurePluginState host props w in
  (exists msg,
      fst r = Throw (new_Error host msg) /\
      (msg = "Services object not provided to component" \/
       msg = "PluginState service not available in services object")) /\
  isStateConfigured (state (snd r)) = isStateConfigured (state w) /\
  pluginStateUnsubscribers (snd r) = pluginStateUnsubscribers w /\
  store (snd r) = store w /\
  debugLogs (state (snd r)) =
  (Js.slice_last 19 (debugLogs (state w)) ++
   [log_entry host (clock w) "Failed to configure PluginState service"])%list.
Proof.
  intro Hnone. cbv zeta. unfold services_pluginState in Hnone.
  destruct (services props) as [svcs|] eqn:Hprops;
    open_world w;
    remember (configurePluginState host props _) as r eqn:Er;
    unfold configurePluginState in Er; rewrite Hprops in Er; rewrite ?Hnone in Er;
    crunch_sync_in Er; subst r; crunch;
    (split; [eexists; split; [reflexivity | auto]|]);
    repeat split; reflexivity.
Qed.

(** X11.  Once [configure] has returned, configuration succeeds and sets the
    flag whatever the hook registrations do; but the three handles are
    stored all or none: when a registration throws, the handles obtained
    before it are not kept, so those callbacks are never unsubscribed. *)
Theorem configurePluginState_hooks_all_or_none
        (w : World Store) (svc : PluginStateService Store) (st1 : Store) :
  services_pluginState props = Some svc ->
  svc_configure svc (plugin_config host (clock w)) (store w) = (Normal tt, st1) ->
  let r := configurePluginState host props w in
  fst r = Normal tt /\
  isStateConfigured (state (snd r)) = true /\
  match svc_onSave svc st1 with
  | (Normal onSaveUnsubscribe, st2) =>
      match svc_onRestore svc st2 with
      | (Normal onRestoreUnsubscribe, st3) =>
          match svc_onClear svc st3 with
          | (Normal onClearUnsubscribe, st4) =>
              pluginStateUnsubscribers (snd r) =
              (pluginStateUnsubscribers w ++
               [onSaveUnsubscribe; onRestoreUnsubscribe; onClearUnsubscribe])%list /\
              store (snd r) = st4
          | (Throw _, st4) =>
              pluginStateUnsubscribers (snd r) = pluginStateUnsubscribers w /\
              store (snd r) = st4
          end
      | (Throw _, st3) =>
          pluginStateUnsubscribers (snd r) = pluginStateUnsubscribers w /\
          store (snd r) = st3
      end
  | (Throw _, st2) =>
      pluginStateUnsubscribers (snd r) = pluginStateUnsubscribers w /\
      store (snd r) = st2
  end.
Proof.
  intros Hsome Hconfigure. cbv zeta. unfold services_pluginState in Hsome.
  destruct (services props) as [svcs|] eqn:Hprops; [|discriminate].
  unfold plugin_config in Hconfigure.
  destruct (svc_onSave svc st1) as [[u1|e1] st2] eqn:HonSave;
    [destruct (svc_onRestore svc st2) as [[u2|e2] st3] eqn:HonRestore;
     [destruct (svc_onClear svc st3) as [[u3|e3] st4] eqn:HonClear|]|];
    open_world w;
    remember (configurePluginState host props _) as r eqn:Er;
    unfold configurePluginState in Er; rewrite Hprops, Hsome in Er;
    crunch_sync_in Er; rewrite Hconfigure in Er; crunch_sync_in Er;
    rewrite HonSave in Er; crunch_sync_in Er;
    rewrite ?HonRestore in Er; crunch_sync_in Er;
    rewrite ?HonClear in Er; crunch_sync_in Er;
    subst r; crunch; repeat split; reflexivity.
Qed.

(** X12.  When [configure] itself throws, the failure is rethrown as it is, no
    hook is registered and nothing is configured. *)
Theorem configurePluginState_configure_throws
        (w : World Store) (svc : PluginStateService Store) (e : JsValue) (st1 : Store) :
  services_pluginState props = Some svc ->
  svc_configure svc (plugin_config host (clock w)) (store w) = (Throw e, st1) ->
  let r := configurePluginState host props w in
  fst r = Throw e /\
  store (snd r) = st1 /\
  isStateConfigured (state (snd r)) = isStateConfigured (state w) /\
  pluginStateUnsubscribers (snd r) = pluginStateUnsubscribers w.
Proof.
  intros Hsome Hconfigure. cbv zeta. unfold services_pluginState in Hsome.
  destruct (services props) as [svcs|] eqn:Hprops; [|discriminate].
  unfold plugin_config in Hconfigure.
  open_world w.
  remember (configurePluginState host props _) as r eqn:Er.
  unfold configurePluginState in Er. rewrite Hprops, Hsome in Er.
  crunch_sync_in Er. rewrite Hconfigure in Er. crunch_sync_in Er.
  subst r. crunch. repeat split; reflexivity.
Qed.

(** Every path of mounting at once. *)
Lemma componentDidMount_total (w : World Store) :
  let r := componentDidMount host props w in
  fst r = Normal tt /\
  isInitializing (state (snd r)) = false /\
  isLoading (state (snd r)) = false /\
  error_consistent (state (snd r)) /\
  timers (snd r) = timers w /\
  autoSaveTimeout (snd r) = autoSaveTimeout w /\
  save_invocations (snd r) = save_invocations w.
Proof.
  cbv zeta. remember (componentDidMount host props w) as r eqn:Er.
  unfold componentDidMount, try_catch in Er.
  unfold bind at 1 in Er. rewrite addDebugLog_relog in Er.
  set (w0 := relog _ w) in Er. unfold bind at 1 in Er.
  destruct (configurePluginState_total w0) as (_ & Ht & Ha & Hs & _).
  destruct (configurePluginState host props w0) as [[[]|e] w1] eqn:Ec;
    cbn [fst snd] in Ht, Ha, Hs;
    unfold w0, relog in Ht, Ha, Hs;
    cbn [timers autoSaveTimeout save_invocations set_state] in Ht, Ha, Hs.
  - unfold bind at 1 in Er.
    destruct (restoreState_total host props w1)
      as (Hr & Hbusy & Herr & _ & Ht' & Ha' & Hs' & _).
    destruct (restoreState host props w1) as [r2 w2]. cbn [fst snd] in *. subst r2.
    unfold bind, setState in Er. rewrite addDebugLog_relog in Er.
    subst r. unfold error_consistent in *. unfold relog. cbn.
    repeat split; try assumption; congruence.
  - unfold bind in Er.
    destruct (handleError_returns host e "componentDidMount" w1) as (info & Eh & _).
    rewrite Eh in Er. subst r.
    unfold setState, error_consistent. cbn.
    repeat split; try reflexivity; assumption.
Qed.


(** X14.  Mounting with no service on the props makes no call at all (the
    restore is skipped), configures nothing, and shows an error under the
    name componentDidMount whose category is unknown. *)
Theorem componentDidMount_without_service (w : World Store) :
  services_pluginState props = None ->
  let w' := snd (componentDidMount host props w) in
  service_calls w' = service_calls w /\
  store w' = store w /\
  isStateConfigured (state w') = isStateConfigured (state w) /\
  demoData (state w') = demoData (state w) /\
  restoreCount (state w') = restoreCount (state w) /\
  exists info,
    errorInfo (state w') = Some info /\
    error (state w') = message info /\
    operation info = "componentDidMount" /\
    type info = unknown.
Proof.
  intro Hnone. cbv zeta. unfold services_pluginState in Hnone.
  destruct (services props) as [svcs|] eqn:Hprops;
    open_world w;
    remember (snd (componentDidMount host props _)) as w' eqn:Ew';
    unfold componentDidMount, configurePluginState in Ew';
    rewrite Hprops in Ew'; rewrite ?Hnone in Ew';
    crunch_sync_in Ew'; subst w'; crunch;
    (repeat split; try reflexivity; eexists; repeat split; reflexivity).
Qed.

End Lifecycle.

(* ------------------------------------------------------------------ *)
(** ** What holds between handlers *)

Section Quiescent.

Context {Store : Type} (host : Host) (props : Props Store).

(** Arming the scheduler leaves the component state alone. *)
Lemma debouncedAutoSave_state (w : World Store) :
  state (snd (debouncedAutoSave w)) = state w /\
  store (snd (debouncedAutoSave w)) = store w /\
  service_calls (snd (debouncedAutoSave w)) = service_calls w /\
  save_invocations (snd (debouncedAutoSave w)) = save_invocations w /\
  clock (snd (debouncedAutoSave w)) = clock w.
Proof.
  unfold debouncedAutoSave, bind, setTimeout, clearTimeout.
  destruct (autoSaveTimeout w); cbn; repeat split; reflexivity.
Qed.

(** A mutation merges the updates into the data and stamps it with the
    current instant; the rest of the component state is untouched. *)
Lemma updateDemoData_state (updates : DemoDataUpdate) (w : World Store) :
  state (snd (updateDemoData host updates w)) =
  set_demoData
    {| userInput := or_else (upd_userInput updates) (userInput (demoData (state w)));
       counter := or_else (upd_counter updates) (counter (demoData (state w)));
       preferences := or_else (upd_preferences updates) (preferences (demoData (state w)));
       timestamp := toISOString host (clock w) |}
    (state w) /\
  store (snd (updateDemoData host updates w)) = store w /\
  service_calls (snd (updateDemoData host updates w)) = service_calls w /\
  save_invocations (snd (updateDemoData host updates w)) = save_invocations w /\
  clock (snd (updateDemoData host updates w)) = clock w.
Proof.
  unfold updateDemoData, bind, Date_now, setState, this_state, when.
  cbn [fst snd state set_state demoData set_demoData preferences].
  match goal with |- context [if ?b then _ else _] => destruct b end.
  - match goal with
    | |- context [debouncedAutoSave ?W] =>
        destruct (debouncedAutoSave_state W) as (-> & -> & -> & -> & ->)
    end.
    repeat split; reflexivity.
  - repeat split; reflexivity.
Qed.

Lemma componentWillUnmount_state (w : World Store) :
  exists logs, state (snd (componentWillUnmount host w)) = set_debugLogs logs (state w).
Proof.
  unfold componentWillUnmount, cleanupServices, bind, clearTimeout.
  destruct (autoSaveTimeout w); rewrite addDebugLog_relog; eexists; reflexivity.
Qed.

(** The auto-save callback ends as Save does. *)
Lemma fire_state (P : PluginStateDemoState -> Prop) (id : TimerId) (due : Z)
      (w : World Store) :
  (forall w0 : World Store, P (state (snd (saveState host props w0)))) ->
  P (state (fire host props id due w)).
Proof.
  intro Hsave. unfold fire, clearTimeout, autoSaveCallback, bind.
  rewrite addDebugLog_relog. apply Hsave.
Qed.

Lemma advance_to_state (P : PluginStateDemoState -> Prop) (t : Z) (w : World Store) :
  (forall w0 : World Store, P (state (snd (saveState host props w0)))) ->
  P (state w) -> P (state (advance_to host props t w)).
Proof.
  intros Hsave. unfold advance_to. cbn [state set_clock].
  generalize (List.length (timers w)). intros fuel. revert w.
  induction fuel as [|fuel IH]; intros w Hw; cbn [run_timers]; [exact Hw|].
  destruct (next_due t (timers w)) as [[id due]|]; [|exact Hw].
  apply IH, fire_state, Hsave.
Qed.

Lemma handle_quiescent (e : Event) (w : World Store) :
  quiescent (state w) -> quiescent (state (handle host props e w)).
Proof.
  unfold quiescent, error_consistent. intros [Herr Hbusy].
  destruct e; cbn [handle].
  - destruct (componentDidMount_total host props w) as (_ & _ & Hb & He & _). auto.
  - destruct (componentWillUnmount_state w) as [logs ->]. cbn. auto.
  - destruct (saveState_total host props w) as (_ & Hb & He & _). auto.
  - destruct (restoreState_total host props w) as (_ & Hb & He & _). auto.
  - destruct (clearState_total host props w) as (_ & Hb & _ & He & _). auto.
  - cbn. auto.
  - cbn. auto.
  - unfold handleTextChange.
    destruct (updateDemoData_state
                {| upd_userInput := Some value; upd_counter := None;
                   upd_preferences := None; upd_timestamp := None |} w) as (-> & _).
    cbn. auto.
  - unfold incrementCounter, bind, this_state.
    match goal with
    | |- context [updateDemoData host ?u w] =>
        destruct (updateDemoData_state u w) as (-> & _)
    end.
    cbn. auto.
  - unfold decrementCounter, bind, this_state.
    match goal with
    | |- context [updateDemoData host ?u w] =>
        destruct (updateDemoData_state u w) as (-> & _)
    end.
    cbn. auto.
  - unfold handlePreferenceChange, bind, this_state.
    match goal with
    | |- context [updateDemoData host ?u w] =>
        destruct (updateDemoData_state u w) as (-> & _)
    end.
    cbn. auto.
  - cbn. auto.
  - cbn. auto.
  - apply (advance_to_state
             (fun s => error s = match errorInfo s with
                                 | Some info => message info
                                 | None => ""
                                 end /\ isLoading s = false)).
    + intro w0. destruct (saveState_total host props w0) as (_ & Hb & He & _). auto.
    + auto.
Qed.

(** X15.  In every world the component can be in between two handlers, the
    error text on display is the message of the current error record
    (empty when there is none), and the busy flag is clear. *)
Theorem reachable_quiescent (w : World Store) :
  reachable host props w ->
  error (state w) =
    match errorInfo (state w) with Some info => message info | None => "" end /\
  isLoading (state w) = false.
Proof.
  induction 1 as [st now | e w _ IH].
  - split; reflexivity.
  - exact (handle_quiescent e w IH).
Qed.

End Quiescent.

(* ------------------------------------------------------------------ *)
(** ** Mutations and the auto-save switch *)

Section Mutations.

Context {Store : Type} (host : Host) (props : Props Store).


(** X16.  Every mutation stamps the data with the current instant, whatever
    timestamp the update carries, keeps the fields the update does not
    name, and touches neither the counters, the error, the log nor the
    service. *)
Theorem updateDemoData_stamps_and_merges (updates : DemoDataUpdate) (w : World Store) :
  let w' := snd (updateDemoData host updates w) in
  timestamp (demoData (state w')) = toISOString host (clock w) /\
  userInput (demoData (state w')) =
    or_else (upd_userInput updates) (userInput (demoData (state w))) /\
  counter (demoData (state w')) =
    or_else (upd_counter updates) (counter (demoData (state w))) /\
  preferences (demoData (state w')) =
    or_else (upd_preferences updates) (preferences (demoData (state w))) /\
  saveCount (state w') = saveCount (state w) /\
  restoreCount (state w') = restoreCount (state w) /\
  errorInfo (state w') = errorInfo (state w) /\
  debugLogs (state w') = debugLogs (state w) /\
  store w' = store w /\
  service_calls w' = service_calls w.
Proof.
  cbv zeta.
  destruct (updateDemoData_state host updates w) as (Hstate & Hstore & Hcalls & _).
  rewrite Hstate, Hstore, Hcalls. cbn. repeat split; reflexivity.
Qed.


(** A mutation that leaves auto-save off touches no timer. *)
Lemma updateDemoData_not_armed (updates : DemoDataUpdate) (w : World Store) :
  autoSave_after updates w = false ->
  timers (snd (updateDemoData host updates w)) = timers w /\
  autoSaveTimeout (snd (updateDemoData host updates w)) = autoSaveTimeout w /\
  next_timer (snd (updateDemoData host updates w)) = next_timer w /\
  clock (snd (updateDemoData host updates w)) = clock w /\
  save_invocations (snd (updateDemoData host updates w)) = save_invocations w.
Proof.
  intro Hoff. unfold updateDemoData, bind, Date_now, setState, this_state.
  cbn [fst snd state set_state demoData set_demoData preferences].
  unfold autoSave_after, or_else in Hoff. rewrite Hoff.
  repeat split; reflexivity.
Qed.

(** X18.  With auto-save off and nothing pending, a mutation schedules nothing:
    however long one waits, no Save is entered. *)
Theorem mutation_with_autoSave_off_never_saves
        (updates : DemoDataUpdate) (w : World Store) (T : Z) :
  timers w = [] ->
  autoSave_after updates w = false ->
  let w' := snd (updateDemoData host updates w) in
  timers w' = [] /\
  save_invocations (advance_to host props T w') = save_invocations w /\
  service_calls (advance_to host props T w') = service_calls w.
Proof.
  intros Hnone Hoff. cbv zeta.
  destruct (updateDemoData_not_armed updates w Hoff) as (Ht & _ & _ & _ & Hs).
  destruct (updateDemoData_state host updates w) as (_ & _ & Hcalls & _).
  rewrite Hnone in Ht.
  rewrite advance_to_quiet by (rewrite Ht; reflexivity).
  cbn. auto.
Qed.

(** X19.  Switching auto-save off does not cancel a save already scheduled: a
    mutation arms the timer, auto-save is switched off within the window,
    and Save is still entered 1000 after the mutation. *)
Theorem autoSave_off_keeps_pending_save
        (w : World Store) (u1 : DemoDataUpdate) (t2 T : Z) :
  timers_owned w ->
  clock w <= t2 < clock w + 1000 ->
  autoSave_after u1 w = true ->
  clock w + 1000 <= T ->
  let w1 := snd (updateDemoData host u1 w) in
  let w2 := snd (handlePreferenceChange host key_autoSave false
                   (advance_to host props t2 w1)) in
  autoSave (preferences (demoData (state w2))) = false /\
  timers w2 = [(next_timer w, clock w + 1000)] /\
  save_invocations (advance_to host props T w2) =
  (save_invocations w ++ [clock w + 1000])%list.
Proof.
  intros Hown Ht2 Hon HT w1 w2.
  destruct (updateDemoData_arms host u1 w Hown Hon) as (Ht & Ha & Hn & Hc & Hs).
  fold w1 in Ht, Ha, Hn, Hc, Hs.
  assert (Hquiet : advance_to host props t2 w1 = set_clock (Z.max (clock w1) t2) w1).
  { apply advance_to_quiet. rewrite Ht. cbn [next_due].
    destruct (Z.leb_spec (clock w + 1000) t2); [lia | reflexivity]. }
  unfold handlePreferenceChange, bind, this_state in w2.
  cbn [fst snd] in w2.
  match eval unfold w2 in w2 with
  | snd (updateDemoData host ?u ?W) =>
      assert (Hoff : autoSave_after u W = false) by reflexivity;
      destruct (updateDemoData_not_armed u W Hoff) as (Ht' & _ & _ & Hc' & Hs');
      destruct (updateDemoData_state host u W) as (Hstate & _)
  end.
  fold w2 in Ht', Hc', Hs', Hstate.
  rewrite Hquiet in Ht', Hc', Hs'. cbn [timers clock save_invocations set_clock] in Ht', Hc', Hs'.
  rewrite Ht in Ht'. rewrite Hc in Hc'. rewrite Hs in Hs'.
  split; [rewrite Hstate; reflexivity|].
  split; [exact Ht'|].
  destruct (advance_to_fires host props T w2 _ _ Ht' HT) as [-> _].
  rewrite Hs', Hc', Z.max_r by lia. reflexivity.
Qed.

End Mutations.

(* ------------------------------------------------------------------ *)
(** ** Round trips through the development mock *)

(** As [crunch_sync_in], with the mock service run too. *)
Ltac crunch_mock_in H :=
  cbv beta iota zeta delta
    [services_pluginState services pluginState
     Demo.mockServices Demo.mockService Demo.mock_unsubscribe
     svc_configure svc_saveState svc_getState svc_clearState
     svc_onSave svc_onRestore svc_onClear
     outcome store_after elapsed
     Demo.mockState Demo.save_callbacks Demo.restore_callbacks Demo.clear_callbacks
     componentDidMount configurePluginState restoreState
     componentWillUnmount cleanupServices clearTimeout
     fold_left Nat.eqb pred] in H;
  crunch_sync_in H.

Section MockRoundTrips.

Variable host : Host.

(** X20.  Against the mock service, Save followed by any mutation and then
    Restore brings back the data as saved: the mutation is undone, the
    save counter is the saved one, and the restore counter has gone up by
    one. *)
Theorem mock_save_mutate_restore
        (w : World Demo.MockStore) (updates : DemoDataUpdate) :
  isValid (validateDemoData host (demoData (state w))) = true ->
  envelope_size (state w) <= 10240 ->
  let w1 := snd (saveState host Demo.mockServices w) in
  let w2 := snd (updateDemoData host updates w1) in
  let w3 := snd (restoreState host Demo.mockServices w2) in
  Demo.mockState (store w1) = Some (envelope (state w)) /\
  demoData (state w3) = demoData (state w) /\
  saveCount (state w3) = saveCount (state w) + 1 /\
  restoreCount (state w3) = restoreCount (state w) + 1 /\
  errorInfo (state w3) = None /\
  service_calls w3 =
  (service_calls w ++ [CallSaveState (envelope (state w)); CallGetState])%list.
Proof.
  intros Hvalid Hsize w1 w2 w3.
  destruct (saveState_resolved host Demo.mockServices w Demo.mockService
              eq_refl Hvalid Hsize eq_refl)
    as (_ & Hcalls1 & Hstore1 & _).
  fold w1 in Hcalls1, Hstore1.
  destruct (updateDemoData_state host updates w1) as (_ & Hstore2 & Hcalls2 & _).
  fold w2 in Hstore2, Hcalls2.
  assert (Hsaved : Demo.mockState (store w2) = Some (envelope (state w))).
  { rewrite Hstore2, Hstore1. reflexivity. }
  assert (Hout : outcome (svc_getState Demo.mockService (store w2)) =
                 Normal (Some (envelope (state w)))).
  { cbn [svc_getState Demo.mockService outcome]. rewrite Hsaved. reflexivity. }
  destruct (restoreState_resolved host Demo.mockServices w2 Demo.mockService _
              eq_refl Hout)
    as ((Hdata & Hsaves & Hrestores & _) & _ & Hinfo & _ & _ & _ & Hcalls3).
  fold w3 in Hdata, Hsaves, Hrestores, Hinfo, Hcalls3.
  split; [rewrite Hstore1; reflexivity|].
  split; [exact Hdata|]. split; [exact Hsaves|]. split; [exact Hrestores|].
  split; [exact Hinfo|].
  rewrite Hcalls3, Hcalls2, Hcalls1, <- app_assoc. reflexivity.
Qed.

(** X21.  Against the mock service, Clear followed by Restore finds nothing:
    the data stays at the default Clear installed, both counters stay 0
    (the restore is not counted), and no error is shown. *)
Theorem mock_clear_then_restore (w : World Demo.MockStore) :
  let w1 := snd (clearState host Demo.mockServices w) in
  let w2 := snd (restoreState host Demo.mockServices w1) in
  Demo.mockState (store w1) = None /\
  demoData (state w2) = default_demoData host (clock w1) /\
  saveCount (state w2) = 0 /\
  restoreCount (state w2) = 0 /\
  lastRestoreTime (state w2) = None /\
  errorInfo (state w2) = None.
Proof.
  intros w1 w2.
  destruct (clearState_resolved host Demo.mockServices w Demo.mockService eq_refl eq_refl)
    as (Hdata & Hsaves & Hrestores & _ & Hlast & _ & _ & Hstore & Hclock & _).
  fold w1 in Hdata, Hsaves, Hrestores, Hlast, Hstore, Hclock.
  assert (Hout : outcome (svc_getState Demo.mockService (store w1)) = Normal None).
  { rewrite Hstore. reflexivity. }
  destruct (restoreState_resolved host Demo.mockServices w1 Demo.mockService _
              eq_refl Hout)
    as ((Hdata' & Hsaves' & Hrestores' & Hlast') & _ & Hinfo & _).
  fold w2 in Hdata', Hsaves', Hrestores', Hlast', Hinfo.
  split; [rewrite Hstore; reflexivity|].
  split; [rewrite Hdata', Hdata, Hclock; reflexivity|].
  split; [congruence|]. split; [congruence|]. split; [congruence | exact Hinfo].
Qed.

(** X22.  Against the mock service, mounting registers one callback of each
    kind and keeps the three handles; unmounting invokes each handle once,
    which leaves the mock with the callbacks it had before, and the
    component with no handle. *)
Theorem mock_mount_then_unmount (w : World Demo.MockStore) :
  pluginStateUnsubscribers w = [] ->
  let w1 := snd (componentDidMount host Demo.mockServices w) in
  let w2 := snd (componentWillUnmount host w1) in
  List.length (pluginStateUnsubscribers w1) = 3%nat /\
  Demo.save_callbacks (store w1) = S (Demo.save_callbacks (store w)) /\
  Demo.restore_callbacks (store w1) = S (Demo.restore_callbacks (store w)) /\
  Demo.clear_callbacks (store w1) = S (Demo.clear_callbacks (store w)) /\
  isStateConfigured (state w1) = true /\
  pluginStateUnsubscribers w2 = [] /\
  Demo.save_callbacks (store w2) = Demo.save_callbacks (store w) /\
  Demo.restore_callbacks (store w2) = Demo.restore_callbacks (store w) /\
  Demo.clear_callbacks (store w2) = Demo.clear_callbacks (store w) /\
  Demo.mockState (store w2) = Demo.mockState (store w).
Proof.
  intros Hnone w1 w2. subst w2 w1.
  destruct w as [s unsubs auto st clk tms nxt calls saves].
  cbn [pluginStateUnsubscribers] in Hnone. subst unsubs.
  destruct st as [saved n_save n_restore n_clear].
  destruct s as [? ? err info ? ? ? ? ? ? ? ? ?].
  remember (snd (componentDidMount host Demo.mockServices _)) as w1 eqn:E1.
  destruct saved; destruct err; destruct info;
    crunch_mock_in E1; settle_in E1 host; crunch_mock_in E1;
    subst w1;
    remember (snd (componentWillUnmount host _)) as w2 eqn:E2;
    destruct auto; crunch_mock_in E2;
    subst w2; cbn; repeat split; reflexivity.
Qed.

End MockRoundTrips.

(* ------------------------------------------------------------------ *)
(** ** The log as a window on what was written *)

Lemma slice_last_snoc {A : Type} (n : nat) (l : list A) (x : A) :
  (Js.slice_last n l ++ [x])%list = Js.slice_last (S n) (l ++ [x]).
Proof.
  unfold Js.slice_last. rewrite length_app. cbn [List.length].
  replace (List.length l + 1 - S n)%nat with (List.length l - n)%nat by lia.
  rewrite skipn_app.
  replace (List.length l - n - List.length l)%nat with 0%nat by lia.
  reflexivity.
Qed.

Lemma slice_last_of_suffix {A : Type} (n : nat) (a c : list A) :
  (n <= List.length c)%nat -> Js.slice_last n (a ++ c) = Js.slice_last n c.
Proof.
  intro H. unfold Js.slice_last. rewrite length_app, skipn_app.
  rewrite skipn_all2 by lia.
  replace (List.length a + List.length c - n - List.length a)%nat
    with (List.length c - n)%nat by lia.
  reflexivity.
Qed.

Lemma slice_last_twice {A : Type} (n : nat) (l es : list A) :
  Js.slice_last n (Js.slice_last n l ++ es) = Js.slice_last n (l ++ es).
Proof.
  destruct (Nat.le_gt_cases (List.length l) n) as [H|H].
  - rewrite (slice_last_all n l H). reflexivity.
  - rewrite <- (firstn_skipn (List.length l - n) l) at 2.
    rewrite <- app_assoc.
    rewrite (slice_last_of_suffix n (firstn (List.length l - n) l)).
    + reflexivity.
    + rewrite length_app, length_skipn. lia.
Qed.

Section LogWindow.

Context {Store : Type} (host : Host).

(** X23.  After any run of appends to a log within its bound, the log is the
    last 20 of the old entries followed by the new ones, in the order
    written: nothing but the oldest entries is ever lost. *)
Theorem debug_log_is_last_20_written (messages : list string) (w : World Store) :
  log_bounded w ->
  debugLogs (state (log_all host messages w)) =
  Js.slice_last 20 (debugLogs (state w) ++ map (log_entry host (clock w)) messages) /\
  clock (log_all host messages w) = clock w.
Proof.
  revert w. induction messages as [|m ms IH]; intros w Hw.
  - cbn. rewrite app_nil_r, slice_last_all by exact Hw. split; reflexivity.
  - cbn [log_all fold_left map].
    assert (Hb : log_bounded (snd (addDebugLog host m w))).
    { unfold log_bounded. rewrite addDebugLog_relog. cbn.
      rewrite length_app, slice_last_length. cbn [List.length]. lia. }
    destruct (IH _ Hb) as [Hlogs Hclock]. unfold log_all in Hlogs, Hclock.
    rewrite Hlogs, Hclock. rewrite addDebugLog_relog.
    cbn [snd relog state set_state debugLogs set_debugLogs clock].
    rewrite slice_last_snoc, slice_last_twice, <- app_assoc.
    split; reflexivity.
Qed.

End LogWindow.

(* ------------------------------------------------------------------ *)
(** ** How large an envelope can be *)

Lemma string_length_append (a b : string) :
  String.length (a ++ b) = (String.length a + String.length b)%nat.
Proof. induction a as [|c a IH]; cbn; [reflexivity | now rewrite IH]. Qed.

Lemma escape_length (c : ascii) :
  (1 <= String.length (JSON.escape c) <= 6)%nat.
Proof.
  unfold JSON.escape. cbv zeta.
  repeat match goal with
         | |- context [if ?b then _ else _] => destruct b
         end; cbn; lia.
Qed.

Lemma escape_all_length (s : string) :
  (String.length s <= String.length (JSON.escape_all s) <= 6 * String.length s)%nat.
Proof.
  induction s as [|c s IH]; cbn [JSON.escape_all String.length]; [lia|].
  rewrite string_length_append. pose proof (escape_length c). lia.
Qed.

(** The envelope's length, member by member. *)
Lemma envelope_length (s : PluginStateDemoState) :
  String.length (JSON_stringify (envelope s)) =
  (129 +
   String.length (JSON.escape_all (userInput (demoData s))) +
   String.length (JSON.num (counter (demoData s))) +
   String.length (JSON.boolean (autoSave (preferences (demoData s)))) +
   String.length (JSON.boolean (showDebugInfo (preferences (demoData s)))) +
   String.length (JSON.escape_all (timestamp (demoData s))) +
   String.length (JSON.num (saveCount s + 1)) +
   String.length (JSON.num (restoreCount s)))%nat.
Proof.
  unfold JSON_stringify, envelope, stringify_DemoData, stringify_preferences,
    JSON.object, JSON.member, JSON.str.
  cbn [saved_demoData saved_saveCount saved_restoreCount option_map app Js.join].
  generalize (JSON.escape_all (userInput (demoData s))) as ui.
  generalize (JSON.num (counter (demoData s))) as c.
  generalize (JSON.boolean (autoSave (preferences (demoData s)))) as a.
  generalize (JSON.boolean (showDebugInfo (preferences (demoData s)))) as b.
  generalize (JSON.escape_all (timestamp (demoData s))) as ts.
  generalize (JSON.num (saveCount s + 1)) as sc.
  generalize (JSON.num (restoreCount s)) as rc.
  intros.
  repeat (rewrite string_length_append || cbn [String.length]).
  cbn. lia.
Qed.

Section EnvelopeSize.

Variable host : Host.

(** X24.  The envelope grows with the text and the timestamp only: it is at
    least their lengths, the printed numbers and 137, and at most six times
    their lengths, the printed numbers and 139.  So data with a text of at most 1000, a
    timestamp of at most 600, and numbers printed in at most 25 characters
    each always fits under the ceiling of 10240. *)
Theorem envelope_size_bounds (s : PluginStateDemoState) :
  let d := demoData s in
  let numbers :=
    Js.length (JSON.num (counter d)) + Js.length (JSON.num (saveCount s + 1)) +
    Js.length (JSON.num (restoreCount s)) in
  Js.length (userInput d) + Js.length (timestamp d) + numbers + 137
    <= envelope_size s
    <= 6 * Js.length (userInput d) + 6 * Js.length (timestamp d) + numbers + 139 /\
  (Js.length (userInput d) <= 1000 ->
   Js.length (timestamp d) <= 600 ->
   numbers <= 75 ->
   envelope_size s <= 10240).
Proof.
  cbv zeta. unfold envelope_size, Js.length.
  rewrite envelope_length.
  pose proof (escape_all_length (userInput (demoData s))) as Hu.
  pose proof (escape_all_length (timestamp (demoData s))) as Ht.
  assert (Ha : (4 <= String.length (JSON.boolean (autoSave (preferences (demoData s)))) <= 5)%nat)
    by (destruct (autoSave (preferences (demoData s))); cbn; lia).
  assert (Hb : (4 <= String.length (JSON.boolean (showDebugInfo (preferences (demoData s)))) <= 5)%nat)
    by (destruct (showDebugInfo (preferences (demoData s))); cbn; lia).
  lia.
Qed.

End EnvelopeSize.

(* ------------------------------------------------------------------ *)
(** ** The further properties at concrete inputs *)

Lemma tidy_is_valid :
  isValid (validateDemoData Demo.host (demoData (state Doubles.tidy))) = true.
Proof. vm_compute. reflexivity. Qed.

Lemma tidy_fits : envelope_size (state Doubles.tidy) <= 10240.
Proof. vm_compute. discriminate. Qed.

Lemma saveState_succeeds_witness :
  saveCount (state (snd (saveState Demo.host Demo.mockServices Doubles.tidy))) = 1 /\
  lastSaveTime (state (snd (saveState Demo.host Demo.mockServices Doubles.tidy)))
    = Some "00:00:00" /\
  service_calls (snd (saveState Demo.host Demo.mockServices Doubles.tidy))
    = [CallSaveState (envelope (state Doubles.tidy))].
Proof.
  pose proof (saveState_succeeds Demo.host Demo.mockServices Doubles.tidy Demo.mockService
                eq_refl tidy_is_valid tidy_fits eq_refl)
    as (_ & Hcalls & _ & Hcount & Htime & _).
  split; [exact Hcount|]. split; [exact Htime | exact Hcalls].
Defined.

Lemma saveState_rejected_witness :
  saveCount (state (snd (saveState Demo.host Doubles.offline Doubles.tidy))) = 0 /\
  exists info,
    errorInfo (state (snd (saveState Demo.host Doubles.offline Doubles.tidy))) = Some info /\
    type info = network.
Proof.
  pose proof (saveState_rejected Demo.host Doubles.offline Doubles.tidy
                Doubles.offlineService Doubles.timeout
                eq_refl tidy_is_valid tidy_fits eq_refl)
    as (_ & _ & _ & Hcount & _ & _ & _ & info & Hinfo & _ & _ & Hty & _).
  split; [exact Hcount|]. exists info. split; [exact Hinfo | exact Hty].
Defined.

Lemma long_input_is_invalid :
  isValid (validateDemoData Demo.host (demoData (state Scenario.long_input))) = false.
Proof. vm_compute. reflexivity. Qed.

Lemma saveState_invalid_data_witness :
  service_calls (snd (saveState Demo.host Demo.mockServices Scenario.long_input)) = [] /\
  exists info,
    errorInfo (state (snd (saveState Demo.host Demo.mockServices Scenario.long_input)))
      = Some info /\
    type info = unknown.
Proof.
  pose proof (saveState_invalid_data Demo.host Demo.mockServices Scenario.long_input
                Demo.mockService eq_refl long_input_is_invalid)
    as (Hcalls & _ & _ & _ & _ & _ & info & Hinfo & _ & _ & Hty).
  split; [exact Hcalls|]. exists info. split; [exact Hinfo | exact Hty].
Defined.

Lemma restore_clear_without_service_witness :
  service_calls (snd (restoreState Demo.host Demo.noService Scenario.fresh)) = [] /\
  service_calls (snd (clearState Demo.host Demo.noService Scenario.fresh)) = [].
Proof.
  pose proof (restore_clear_without_service Demo.host Demo.noService Scenario.fresh eq_refl)
    as ((Hr & _) & (Hc & _)).
  split; [exact Hr | exact Hc].
Defined.

Lemma restoreState_rejected_witness :
  restoreCount (state (snd (restoreState Demo.host Doubles.offline Doubles.tidy))) = 0 /\
  exists info,
    errorInfo (state (snd (restoreState Demo.host Doubles.offline Doubles.tidy)))
      = Some info /\
    type info = network.
Proof.
  pose proof (restoreState_rejected Demo.host Doubles.offline Doubles.tidy
                Doubles.offlineService Doubles.timeout eq_refl eq_refl)
    as (_ & _ & _ & _ & Hcount & _ & _ & _ & info & Hinfo & _ & _ & Hty).
  split; [exact Hcount|]. exists info. split; [exact Hinfo | exact Hty].
Defined.

Lemma clearState_rejected_witness :
  userInput (demoData (state (snd (clearState Demo.host Doubles.offline Doubles.tidy))))
    = "hello" /\
  exists info,
    errorInfo (state (snd (clearState Demo.host Doubles.offline Doubles.tidy)))
      = Some info /\
    operation info = "clearState".
Proof.
  pose proof (clearState_rejected Demo.host Doubles.offline Doubles.tidy
                Doubles.offlineService Doubles.timeout eq_refl eq_refl)
    as (_ & _ & Hdata & _ & _ & _ & _ & _ & info & Hinfo & _ & Hop & _).
  split; [rewrite Hdata; reflexivity|]. exists info. split; [exact Hinfo | exact Hop].
Defined.

Lemma configurePluginState_without_service_witness :
  fst (configurePluginState Demo.host Demo.noService Scenario.fresh) =
  Throw (new_Error Demo.host "PluginState service not available in services object") /\
  isStateConfigured (state (snd (configurePluginState Demo.host Demo.noService
                                   Scenario.fresh))) = false.
Proof.
  pose proof (configurePluginState_without_service Demo.host Demo.noService
                Scenario.fresh eq_refl) as (_ & Hflag & _).
  split; [reflexivity | exact Hflag].
Defined.

Lemma configurePluginState_hooks_all_or_none_witness :
  isStateConfigured (state (snd (configurePluginState Demo.host Doubles.flaky
                                   Scenario.fresh))) = true /\
  pluginStateUnsubscribers (snd (configurePluginState Demo.host Doubles.flaky
                                   Scenario.fresh)) = [] /\
  Demo.save_callbacks (store (snd (configurePluginState Demo.host Doubles.flaky
                                     Scenario.fresh))) = 1%nat.
Proof.
  pose proof (configurePluginState_hooks_all_or_none Demo.host Doubles.flaky
                Scenario.fresh Doubles.flakyService Demo.emptyStore eq_refl eq_refl)
    as (_ & Hflag & Hhandles & Hstore).
  split; [exact Hflag|]. split; [exact Hhandles|]. rewrite Hstore. reflexivity.
Defined.

Lemma configurePluginState_configure_throws_witness :
  fst (configurePluginState Demo.host Doubles.strict Scenario.fresh) =
  Throw (JsError "Error" "schema rejected" None) /\
  Demo.save_callbacks (store (snd (configurePluginState Demo.host Doubles.strict
                                     Scenario.fresh))) = 0%nat.
Proof.
  pose proof (configurePluginState_configure_throws Demo.host Doubles.strict
                Scenario.fresh Doubles.strictService
                (JsError "Error" "schema rejected" None) Demo.emptyStore eq_refl eq_refl)
    as (Hr & Hstore & _).
  split; [exact Hr|]. rewrite Hstore. reflexivity.
Defined.

Lemma componentDidMount_without_service_witness :
  service_calls (snd (componentDidMount Demo.host Demo.noService Scenario.fresh)) = [] /\
  exists info,
    errorInfo (state (snd (componentDidMount Demo.host Demo.noService Scenario.fresh)))
      = Some info /\
    operation info = "componentDidMount".
Proof.
  pose proof (componentDidMount_without_service Demo.host Demo.noService Scenario.fresh
                eq_refl)
    as (Hcalls & _ & _ & _ & _ & info & Hinfo & _ & Hop & _).
  split; [exact Hcalls|]. exists info. split; [exact Hinfo | exact Hop].
Defined.

Lemma reachable_quiescent_witness :
  let w := handle Demo.host Doubles.offline ClickSave
             (handle Demo.host Doubles.offline Mount Scenario.fresh) in
  error (state w) = "network timeout" /\ isLoading (state w) = false.
Proof.
  intro w.
  assert (Hreach : reachable Demo.host Doubles.offline w)
    by (apply reachable_handle, reachable_handle, reachable_constructed).
  destruct (reachable_quiescent Demo.host Doubles.offline w Hreach) as [Herr Hbusy].
  split; [|exact Hbusy]. rewrite Herr. reflexivity.
Defined.


Lemma mutation_with_autoSave_off_never_saves_witness :
  save_invocations
    (advance_to Demo.host Demo.mockServices 60000
       (snd (updateDemoData Demo.host Doubles.autoSave_off Doubles.tidy))) = [].
Proof.
  destruct (mutation_with_autoSave_off_never_saves Demo.host Demo.mockServices
              Doubles.autoSave_off Doubles.tidy 60000 eq_refl eq_refl)
    as (_ & Hsaves & _).
  exact Hsaves.
Defined.

Lemma autoSave_off_keeps_pending_save_witness :
  let w1 := snd (updateDemoData Demo.host (Scenario.text_update "a") Scenario.fresh) in
  let w2 := snd (handlePreferenceChange Demo.host key_autoSave false
                   (advance_to Demo.host Demo.mockServices 500 w1)) in
  autoSave (preferences (demoData (state w2))) = false /\
  save_invocations (advance_to Demo.host Demo.mockServices 1000 w2) = [1000].
Proof.
  intros w1 w2.
  assert (Hown : timers_owned Scenario.fresh) by (left; reflexivity).
  assert (Hwin : clock Scenario.fresh <= 500 < clock Scenario.fresh + 1000)
    by (cbn; lia).
  assert (Hlate : clock Scenario.fresh + 1000 <= 1000) by (cbn; lia).
  destruct (autoSave_off_keeps_pending_save Demo.host Demo.mockServices Scenario.fresh
              (Scenario.text_update "a") 500 1000 Hown Hwin eq_refl Hlate)
    as (Hoff & _ & Hsaves).
  split; [exact Hoff | exact Hsaves].
Defined.

Lemma mock_save_mutate_restore_witness :
  let w1 := snd (saveState Demo.host Demo.mockServices Doubles.tidy) in
  let w2 := snd (updateDemoData Demo.host (Scenario.text_update "changed") w1) in
  userInput (demoData (state w2)) = "changed" /\
  userInput (demoData (state (snd (restoreState Demo.host Demo.mockServices w2)))) = "hello".
Proof.
  intros w1 w2.
  destruct (mock_save_mutate_restore Demo.host Doubles.tidy (Scenario.text_update "changed")
              tidy_is_valid tidy_fits)
    as (_ & Hdata & _).
  split; [reflexivity|]. fold w1 w2 in Hdata. rewrite Hdata. reflexivity.
Defined.

Lemma mock_mount_then_unmount_witness :
  let w1 := snd (componentDidMount Demo.host Demo.mockServices Scenario.fresh) in
  Demo.save_callbacks (store w1) = 1%nat /\
  Demo.save_callbacks (store (snd (componentWillUnmount Demo.host w1))) = 0%nat.
Proof.
  intro w1.
  destruct (mock_mount_then_unmount Demo.host Scenario.fresh eq_refl)
    as (_ & Hup & _ & _ & _ & _ & Hdown & _).
  split; [exact Hup | exact Hdown].
Defined.

Lemma debug_log_is_last_20_written_witness :
  debugLogs (state (log_all Demo.host ["a"; "b"; "c"] Scenario.full_log)) =
  (repeat "later" 17 ++ ["[00:00:00] a"; "[00:00:00] b"; "[00:00:00] c"])%list.
Proof.
  assert (Hb : log_bounded Scenario.full_log) by (unfold log_bounded; cbn; lia).
  destruct (debug_log_is_last_20_written Demo.host ["a"; "b"; "c"] Scenario.full_log Hb)
    as [Hlogs _].
  rewrite Hlogs. reflexivity.
Defined.

Lemma envelope_size_bounds_witness :
  envelope_size (state Doubles.tidy) <= 10240.
Proof.
  destruct (envelope_size_bounds (state Doubles.tidy)) as [_ Hfits].
  apply Hfits; vm_compute; discriminate.
Defined.
